(** * Board encoding of the chess engine: [engine/board.py]

    A shallow embedding of [board_to_tensor], [board_to_tensor_extended],
    [tensor_to_board] and [flip_board_tensor], together with the parts of
    numpy and of the chess rules library that these four functions call.

    - An array is a nested list, indexed channel / rank / file.  Cells are
      IEEE-754 values of the Standard Library's [SpecFloat], in the format
      of the array's dtype: binary32 (precision 24, exponent bound 128) for
      the float32 arrays the encoders create, binary64 for numpy's default
      float64, binary16 for float16.  Where the code computes in the dtype
      of its argument, the dtype is passed along with the cells.
    - A Python exception is a value of [exn]; a function that may raise
      returns a [result]. *)

From Stdlib Require Import ZArith NArith Floats.SpecFloat.
From stdpp Require Import base decidable option list gmap strings pretty.

Set Default Proof Using "Type".

(** ** Exceptions *)

Inductive exn : Type :=
  | KeyError
  | IndexError
  | ValueError
  | OverflowError.

Inductive result (A : Type) : Type :=
  | Ok (a : A)
  | Raise (e : exn).
Arguments Ok {A} a.
Arguments Raise {A} e.

#[global] Instance result_ret : MRet result := λ A a, Ok a.
#[global] Instance result_bind : MBind result := λ A B f m,
  match m with
  | Ok a => f a
  | Raise e => Raise e
  end.

(** [for x in l: body], threading the mutated object through the loop. *)
Fixpoint for_each {A S : Type} (l : list A) (body : A → S → result S) (s : S)
  : result S :=
  match l with
  | [] => Ok s
  | x :: l' => s' ← body x s; for_each l' body s'
  end.

(** [range(n)] *)
Definition range (n : nat) : list nat := seq 0 n.
#[global] Arguments range : simpl never.

(** ** numpy: floating-point cells and three-dimensional arrays *)

(** Cells of every precision are [spec_float] values; the precision is that
    of the operation applied to them. *)
Abbreviation float32 := spec_float.
Abbreviation float64 := spec_float.

(** A plane is a list of ranks, each a list of cells; an array is a list of
    planes. *)
Abbreviation plane := (list (list float32)).
Abbreviation ndarray := (list (list (list float32))).

Module np.

Definition prec32 : Z := 24.
Definition emax32 : Z := 128.
Definition prec64 : Z := 53.
Definition emax64 : Z := 1024.

(** The literals [0.0], [1.0] and [0.5] as binary32 values; [0.0] is the
    same value in every format. *)
Definition f0 : float32 := S754_zero false.
Definition f1 : float32 := S754_finite false 8388608 (-23).
Definition fhalf : float32 := S754_finite false 8388608 (-24).

Definition add32 (x y : float32) : float32 := SFadd prec32 emax32 x y.

(** A cell of any of the dtypes as a binary64 value: each of them is one,
    exactly. *)
Definition widen (x : spec_float) : float64 :=
  match x with
  | S754_finite s m e =>
      binary_normalize prec64 emax64 (if s then Z.neg m else Z.pos m) e s
  | _ => x
  end.

(** [x > y] between a cell of any dtype and a Python float, compared by
    value; false when either side is NaN. *)
Definition gt (x y : spec_float) : bool := SFltb (widen y) (widen x).

(** Storing a Python float (binary64) into a float32 array rounds it to
    nearest, ties to even. *)
Definition to_float32 (x : float64) : float32 :=
  match x with
  | S754_finite s m e =>
      binary_normalize prec32 emax32 (if s then Z.neg m else Z.pos m) e s
  | _ => x
  end.


(** The row lengths of every plane; two arrays with the same signature
    have the same shape. *)
Definition dims (t : ndarray) : list (list nat) :=
  (λ p : plane, length <$> p) <$> t.

(** [shape c h w t]: [t.shape == (c, h, w)], that is [c] planes of [h]
    ranks of [w] cells. *)
Definition shape (c h w : nat) (t : ndarray) : Prop :=
  dims t = replicate c (replicate h w).

(** Apply [g] to every cell of a plane. *)
Definition map_plane (g : float32 → float32) (p : plane) : plane :=
  (λ row : list spec_float, g <$> row) <$> p.

Definition full_plane (h w : nat) (v : float32) : plane :=
  replicate h (replicate w v).

(** [np.zeros((c, h, w), dtype=float32)] *)
Definition zeros (c h w : nat) : ndarray := replicate c (full_plane h w f0).

(** [np.zeros_like(t)] *)
Definition zeros_like (t : ndarray) : ndarray :=
  map_plane (λ _, f0) <$> t.

(** [t[c, r, f]] *)
Definition getitem (t : ndarray) (c r f : nat) : result float32 :=
  match t !! c with
  | None => Raise IndexError
  | Some p =>
      match p !! r with
      | None => Raise IndexError
      | Some row =>
          match row !! f with
          | None => Raise IndexError
          | Some v => Ok v
          end
      end
  end.

(** [t[c, r, f] = v] *)
Definition setitem (t : ndarray) (c r f : nat) (v : float32) : result ndarray :=
  match t !! c with
  | None => Raise IndexError
  | Some p =>
      match p !! r with
      | None => Raise IndexError
      | Some row =>
          if decide (f < length row)
          then Ok (<[c := <[r := <[f := v]> row]> p]> t)
          else Raise IndexError
      end
  end.

(** [t[c]] *)
Definition getplane (t : ndarray) (c : nat) : result plane :=
  match t !! c with
  | None => Raise IndexError
  | Some p => Ok p
  end.

(** [t[c] = p], for a plane [p] of the shape of [t[c]]. *)
Definition setplane (t : ndarray) (c : nat) (p : plane) : result ndarray :=
  match t !! c with
  | None => Raise IndexError
  | Some q =>
      if decide (length <$> q = length <$> p)
      then Ok (<[c := p]> t)
      else Raise ValueError
  end.

(** [t[c, :, :] = v] *)
Definition fill (t : ndarray) (c : nat) (v : float32) : result ndarray :=
  match t !! c with
  | None => Raise IndexError
  | Some q => Ok (<[c := map_plane (λ _, v) q]> t)
  end.

(** [t[c, :, f] = v].  The file index is checked against the width of the
    rows of plane [c]. *)
Definition fill_column (t : ndarray) (c f : nat) (v : float32) : result ndarray :=
  match t !! c with
  | None => Raise IndexError
  | Some q =>
      if forallb (λ row : list float32, bool_decide (f < length row)) q
      then Ok (<[c := (λ row : list spec_float, <[f := v]> row) <$> q]> t)
      else Raise IndexError
  end.

(** [t[:n] = v], for [v] of the shape of [t[:n]]. *)
Definition setprefix (t : ndarray) (n : nat) (v : ndarray) : result ndarray :=
  if decide (dims (take n t) = dims v)
  then Ok (v ++ drop n t)
  else Raise ValueError.

(** [np.flip(p, axis=0)] on a plane: the rank axis is reversed. *)
Definition flip (p : plane) : plane := reverse p.

(** The floating-point dtypes: [np.float32], which the encoders ask for,
    [np.float64], numpy's default, and [np.float16]. *)
Inductive dtype : Type := float16 | float32 | float64.

Definition prec (dt : dtype) : Z :=
  match dt with float16 => 11 | float32 => prec32 | float64 => prec64 end.
Definition emax (dt : dtype) : Z :=
  match dt with float16 => 16 | float32 => emax32 | float64 => emax64 end.

(** The literal [1.0] as a value of dtype [dt]. *)
Definition one (dt : dtype) : spec_float :=
  match dt with
  | float16 => S754_finite false 1024 (-10)
  | float32 => f1
  | float64 => S754_finite false 4503599627370496 (-52)
  end.

(** [x - y] on two values of dtype [dt], rounded to nearest, ties to even,
    in the format of [dt]. *)
Definition sub (dt : dtype) (x y : spec_float) : spec_float :=
  SFsub (prec dt) (emax dt) x y.

(** [x - p], cell by cell, for a plane [p] of an array of dtype [dt] and
    the Python float [x] as a value of that dtype; the difference has dtype
    [dt] again. *)
Definition rsub (dt : dtype) (x : spec_float) (p : plane) : plane :=
  map_plane (λ v, sub dt x v) p.

End np.

(** ** The chess rules library, as far as the module calls it *)

Module chess.

Inductive PieceType : Type := PAWN | KNIGHT | BISHOP | ROOK | QUEEN | KING.

Definition Color : Type := bool.
Definition WHITE : Color := true.
Definition BLACK : Color := false.

Record Piece : Type := mkPiece { piece_type : PieceType; color : Color }.

Definition Square : Type := nat.

(** [chess.SQUARES]: a1 = 0, b1 = 1, ..., h8 = 63. *)
Definition SQUARES : list Square := range 64.

(** [square & 7] *)
Definition square_file (square : Square) : nat := Nat.land square 7.
(** [square >> 3] *)
Definition square_rank (square : Square) : nat := Nat.shiftr square 3.
(** [chess.square(file_index, rank_index)] *)
Definition square (file_index rank_index : nat) : Square :=
  rank_index * 8 + file_index.

(** A position: the piece on each square and the game state the
    extended encoding reads.  The four castling fields are the answers of
    [has_kingside_castling_rights] and [has_queenside_castling_rights],
    which the library works out from its castling mask and the placement of
    kings and rooks. *)
Record Board : Type := mkBoard {
  pieces : gmap nat Piece;
  turn : Color;
  white_kingside : bool;
  white_queenside : bool;
  black_kingside : bool;
  black_queenside : bool;
  ep_square : option Square;
  halfmove_clock : N
}.

(** [chess.Board(fen=None)]: no pieces, White to move, no castling
    rights, no en-passant square, halfmove clock 0. *)
Definition empty : Board :=
  mkBoard ∅ WHITE false false false false None 0%N.

Definition piece_at (board : Board) (sq : Square) : option Piece :=
  pieces board !! sq.

(** [board.set_piece_at(sq, piece)] replaces whatever stood on [sq] and
    leaves turn, castling mask, en-passant square and clocks alone.  The
    module only calls it on boards grown from [Board(fen=None)], whose
    castling mask is empty, so that the castling answers stay false
    whatever is placed. *)
Definition set_piece_at (board : Board) (sq : Square) (piece : Piece) : Board :=
  mkBoard (<[sq := piece]> (pieces board)) (turn board)
          (white_kingside board) (white_queenside board)
          (black_kingside board) (black_queenside board)
          (ep_square board) (halfmove_clock board).

Definition has_kingside_castling_rights (board : Board) (c : Color) : bool :=
  if c then white_kingside board else black_kingside board.
Definition has_queenside_castling_rights (board : Board) (c : Color) : bool :=
  if c then white_queenside board else black_queenside board.

End chess.

(** ** Python arithmetic used for the clock plane *)

(** [int(n)] to [float]: rounded to nearest, ties to even; Python raises
    OverflowError where the rounded value would be infinite. *)

Definition float_of_int (n : N) : result float64 :=
  match binary_normalize np.prec64 np.emax64 (Z.of_N n) 0 false with
  | S754_infinity _ => Raise OverflowError
  | x => Ok x
  end.

(** The binary64 literals [100.0] and [1.0]. *)
Definition f64_100 : float64 := S754_finite false 7036874417766400 (-46).
Definition f64_1 : float64 := S754_finite false 4503599627370496 (-52).

(** [x / y] on floats; in [n / 100.0] the int [n] is converted first. *)
Definition truediv (x y : float64) : float64 :=
  SFdiv np.prec64 np.emax64 x y.

(** [min(x, y)] = [y if y < x else x] *)
Definition py_min (x y : float64) : float64 :=
  if SFltb y x then y else x.

(** ** engine/board.py *)

Import chess.

(** The dict [PIECE_TO_CHANNEL].  Its keys are the six piece types, all
    that [piece_at] returns, so the lookup never raises. *)
Definition PIECE_TO_CHANNEL (pt : PieceType) : nat :=
  match pt with
  | PAWN => 0
  | KNIGHT => 1
  | BISHOP => 2
  | ROOK => 3
  | QUEEN => 4
  | KING => 5
  end.

(** The channel [board_to_tensor] computes for a piece:
    [channel = PIECE_TO_CHANNEL[piece.piece_type]], then [channel += 6]
    when [piece.color == chess.BLACK]. *)
Definition piece_channel (piece : Piece) : nat :=
  let channel := PIECE_TO_CHANNEL (piece_type piece) in
  if bool_decide (color piece = BLACK) then channel + 6 else channel.

Definition board_to_tensor (board : Board) : result ndarray :=
  let tensor := np.zeros 12 8 8 in
  for_each SQUARES (λ square tensor,
    match piece_at board square with
    | Some piece =>
        np.setitem tensor (piece_channel piece)
                   (square_rank square) (square_file square) np.f1
    | None => Ok tensor
    end) tensor.

Definition board_to_tensor_extended (board : Board) : result ndarray :=
  let tensor := np.zeros 19 8 8 in
  basic ← board_to_tensor board;
  tensor ← np.setprefix tensor 12 basic;
  tensor ← (if turn board then np.fill tensor 12 np.f1 else Ok tensor);
  tensor ← (if has_kingside_castling_rights board WHITE
            then np.fill tensor 13 np.f1 else Ok tensor);
  tensor ← (if has_queenside_castling_rights board WHITE
            then np.fill tensor 14 np.f1 else Ok tensor);
  tensor ← (if has_kingside_castling_rights board BLACK
            then np.fill tensor 15 np.f1 else Ok tensor);
  tensor ← (if has_queenside_castling_rights board BLACK
            then np.fill tensor 16 np.f1 else Ok tensor);
  tensor ← match ep_square board with
           | Some sq => np.fill_column tensor 17 (square_file sq) np.f1
           | None => Ok tensor
           end;
  clock ← float_of_int (halfmove_clock board);
  let halfmove_normalized := py_min (truediv clock f64_100) f64_1 in
  np.fill tensor 18 (np.to_float32 halfmove_normalized).

(** The dict [channel_to_piece] of [tensor_to_board], keys 0 to 11. *)
Definition channel_to_piece : list (PieceType * Color) :=
  [ (PAWN, WHITE); (KNIGHT, WHITE); (BISHOP, WHITE);
    (ROOK, WHITE); (QUEEN, WHITE); (KING, WHITE);
    (PAWN, BLACK); (KNIGHT, BLACK); (BISHOP, BLACK);
    (ROOK, BLACK); (QUEEN, BLACK); (KING, BLACK) ].

(** [d[k]] on a dict with keys [0 .. len-1]. *)
Definition dict_get {V : Type} (d : list V) (k : nat) : result V :=
  match d !! k with
  | Some v => Ok v
  | None => Raise KeyError
  end.

(** The body of the innermost loop of [tensor_to_board]. *)
Definition place_if_active (tensor : ndarray) (channel row col : nat)
    (piece_type : PieceType) (color : Color) (board : Board) : result Board :=
  v ← np.getitem tensor channel row col;
  if np.gt v np.fhalf
  then Ok (set_piece_at board (square col row) (mkPiece piece_type color))
  else Ok board.

Definition tensor_to_board (tensor : ndarray) : result Board :=
  let board := chess.empty in
  for_each (range 12) (λ channel board,
    '(piece_type, color) ← dict_get channel_to_piece channel;
    for_each (range 8) (λ row board,
      for_each (range 8) (λ col board,
        place_if_active tensor channel row col piece_type color board)
      board)
    board) board.

(** [tensor] is an array of dtype [dt]; so are [np.zeros_like(tensor)],
    [1.0 - tensor[12]] and the array returned. *)
Definition flip_board_tensor (dt : np.dtype) (tensor : ndarray)
  : result ndarray :=
  let flipped := np.zeros_like tensor in
  flipped ← for_each (range 6) (λ i flipped,
    hi ← np.getplane tensor (i + 6);
    flipped ← np.setplane flipped i (np.flip hi);
    lo ← np.getplane tensor i;
    np.setplane flipped (i + 6) (np.flip lo)) flipped;
  if decide (12 < length tensor) then
    p ← np.getplane tensor 12;
    flipped ← np.setplane flipped 12 (np.rsub dt (np.one dt) p);
    p ← np.getplane tensor 15;
    flipped ← np.setplane flipped 13 p;
    p ← np.getplane tensor 16;
    flipped ← np.setplane flipped 14 p;
    p ← np.getplane tensor 13;
    flipped ← np.setplane flipped 15 p;
    p ← np.getplane tensor 14;
    flipped ← np.setplane flipped 16 p;
    flipped ← (if decide (17 < length tensor)
               then p ← np.getplane tensor 17;
                    np.setplane flipped 17 (np.flip p)
               else Ok flipped);
    flipped ← (if decide (18 < length tensor)
               then p ← np.getplane tensor 18;
                    np.setplane flipped 18 p
               else Ok flipped);
    Ok flipped
  else Ok flipped.

(** ** The text view: [visualize_tensor] *)

(** [a[i]] along an axis of length [n], for a Python int [i]: a negative
    index counts from the end, and anything outside [-n .. n-1] raises. *)
Definition axis_index (n : nat) (i : Z) : result nat :=
  if decide (0 ≤ i < Z.of_nat n)%Z then Ok (Z.to_nat i)
  else if decide (- Z.of_nat n ≤ i < 0)%Z then Ok (Z.to_nat (i + Z.of_nat n))
  else Raise IndexError.

(** The dict [piece_symbols], keys 0 to 11. *)
Definition piece_symbols : list string :=
  ["P"; "N"; "B"; "R"; "Q"; "K"; "p"; "n"; "b"; "r"; "q"; "k"].

(** What a call wrote to standard output, one entry per [print], and how
    the call ended. *)
Definition printed : Type := list string * result unit.

(** [range(7, -1, -1)] *)
Definition rank_rows : list nat := reverse (range 8).

(** [for row in rows: line = ...; print(f"{row + 1} {line}")]: the lines
    printed before the first row whose line raises. *)
Fixpoint print_ranks (rows : list nat) (line_of : nat → result string)
  : printed :=
  match rows with
  | [] => ([], Ok ())
  | row :: rows' =>
      match line_of row with
      | Raise e => ([], Raise e)
      | Ok line =>
          let '(out, r) := print_ranks rows' line_of in
          ((pretty (row + 1) +:+ " " +:+ line) :: out, r)
      end
  end.

(** The line of one rank in the single-channel view. *)
Definition channel_line (tensor : ndarray) (channel : Z) (row : nat)
  : result string :=
  for_each (range 8) (λ col line,
    c ← axis_index (length tensor) channel;
    val ← np.getitem tensor c row col;
    Ok (line +:+ (if np.gt val np.fhalf then "1 " else ". "))) "".

(** [for ch in chs: if tensor[ch, row, col] > 0.5: ...; break]: the symbol
    of the first channel above 0.5, and [None] when the loop runs out. *)
Fixpoint first_symbol (tensor : ndarray) (row col : nat) (chs : list nat)
  : result (option string) :=
  match chs with
  | [] => Ok None
  | ch :: chs' =>
      v ← np.getitem tensor ch row col;
      if np.gt v np.fhalf
      then s ← dict_get piece_symbols ch; Ok (Some s)
      else first_symbol tensor row col chs'
  end.

(** The line of one rank in the combined view. *)
Definition combined_line (tensor : ndarray) (row : nat) : result string :=
  for_each (range 8) (λ col line,
    found ← first_symbol tensor row col (range 12);
    Ok (match found with
        | Some s => line +:+ (s +:+ " ")
        | None => line +:+ ". "
        end)) "".

Definition file_footer : string := "  a b c d e f g h".

(** The header is printed, then the rank lines, then the footer unless a
    rank line raised. *)
Definition visualize_tensor (tensor : ndarray) (channel : option Z) : printed :=
  let '(header, line_of) :=
    match channel with
    | Some ch => ("Channel " +:+ pretty ch +:+ ":", channel_line tensor ch)
    | None => ("Combined view:", combined_line tensor)
    end in
  match print_ranks rank_rows line_of with
  | (out, Ok _) => (header :: out ++ [file_footer], Ok ())
  | (out, Raise e) => (header :: out, Raise e)
  end.

(** ** Vocabulary of the statements *)

(** The value [board_to_tensor] leaves in cell [(c, r, f)]. *)
Definition cell_of (board : Board) (c r f : nat) : float32 :=
  if decide (piece_channel <$> piece_at board (square f r) = Some c)
  then np.f1 else np.f0.

(** Cell [(c, r, f)] holds a value above the 0.5 threshold. *)
Definition active (t : ndarray) (c r f : nat) : bool :=
  match np.getitem t c r f with
  | Ok v => np.gt v np.fhalf
  | Raise _ => false
  end.

(** The piece channel [c] denotes. *)
Definition channel_piece (c : nat) : option Piece :=
  (λ '(pt, col), mkPiece pt col) <$> channel_to_piece !! c.

(** The piece denoted by the highest active channel below [k] at cell
    [(r, f)], if there is one. *)
Fixpoint winner (t : ndarray) (k r f : nat) : option Piece :=
  match k with
  | 0 => None
  | S k' => if active t k' r f then channel_piece k' else winner t k' r f
  end.

(** Everything of a position but the piece placement. *)
Definition game_state (b : Board)
  : Color * bool * bool * bool * bool * option Square * N :=
  (turn b, white_kingside b, white_queenside b,
   black_kingside b, black_queenside b, ep_square b, halfmove_clock b).

(** Every cell [tensor_to_board] reads is there. *)
Definition readable (t : ndarray) : Prop :=
  ∀ c r f, c < 12 → r < 8 → f < 8 → ∃ v, np.getitem t c r f = Ok v.

(** A plane of [h] ranks of [w] cells. *)
Definition plane_dims (h w : nat) (p : plane) : Prop :=
  length <$> p = replicate h w.

(** A cell that is exactly 0.0 or 1.0. *)
Definition binary (v : float32) : Prop := v = np.f0 ∨ v = np.f1.

(** A cell of an array of dtype [dt] that holds 0.0 or 1.0; for float32
    this is [binary]. *)
Definition binary_in (dt : np.dtype) (v : spec_float) : Prop :=
  v = np.f0 ∨ v = np.one dt.

(** The en-passant plane [board_to_tensor_extended] builds. *)
Definition ep_plane (ep : option Square) : plane :=
  match ep with
  | Some sq =>
      (λ row : list spec_float, <[square_file sq := np.f1]> row)
        <$> np.full_plane 8 8 np.f0
  | None => np.full_plane 8 8 np.f0
  end.

(** [tensor[c, :, f].sum()] on an array of 8 ranks.  The cells summed here
    are small whole numbers, so every partial sum is exact and the order of
    the additions does not matter. *)
Definition column_sum (t : ndarray) (c f : nat) : result float32 :=
  for_each (range 8) (λ r acc,
    v ← np.getitem t c r f; Ok (np.add32 acc v)) np.f0.

(** The float32 value 8.0. *)
Definition f32_8 : float32 := S754_finite false 8388608 (-20).

(** [float_of_int] returns on each of the [fuel] integers from [n] on. *)
Fixpoint converts_from (fuel : nat) (n : N) : bool :=
  match fuel with
  | 0 => true
  | S fuel' =>
      match float_of_int n with
      | Ok _ => converts_from fuel' (N.succ n)
      | Raise _ => false
      end
  end.

(** ** Positions and arrays of the test suite *)

Definition back_rank : list PieceType :=
  [ROOK; KNIGHT; BISHOP; QUEEN; KING; BISHOP; KNIGHT; ROOK].

(** The pieces of the starting position, rank by rank. *)
Definition starting_pieces : gmap nat Piece :=
  list_to_map
    (imap (λ f pt, (square f 0, mkPiece pt WHITE)) back_rank ++
     ((λ f, (square f 1, mkPiece PAWN WHITE)) <$> range 8) ++
     ((λ f, (square f 6, mkPiece PAWN BLACK)) <$> range 8) ++
     imap (λ f pt, (square f 7, mkPiece pt BLACK)) back_rank).

(** [chess.Board()] *)
Definition starting_board : Board :=
  mkBoard starting_pieces WHITE true true true true None 0%N.

(** [chess.Board()] after [push_san("e4")]: the e-pawn stands on e4, Black
    is to move and e3 is the en-passant square. *)
Definition after_e4 : Board :=
  mkBoard (<[square 4 3 := mkPiece PAWN WHITE]>
             (delete (square 4 1) starting_pieces))
          BLACK true true true true (Some (square 4 2)) 0%N.

(** The array a function returned, for use as the input of another. *)
Definition returned (r : result ndarray) : ndarray :=
  match r with
  | Ok t => t
  | Raise _ => []
  end.

Definition after_e4_extended : ndarray :=
  returned (board_to_tensor_extended after_e4).

(** The same piece placement under another game state: channels 12 to 18
    are all zero. *)
Definition after_e4_blank_state : ndarray :=
  take 12 after_e4_extended ++ drop 12 (np.zeros 19 8 8).

(** An invalid encoding: the White pawn channel 0 and the Black king
    channel 11 are both 1.0 on a1. *)
Definition multi_hot : ndarray :=
  let a1 := <[0 := <[0 := np.f1]> (replicate 8 np.f0)]> (np.full_plane 8 8 np.f0)
  in <[0 := a1]> (<[11 := a1]> (np.zeros 12 8 8)).

(** ** Vocabulary of the further properties *)

(** Cells of channels 0 to 11 are 0.0 or 1.0, and at most one channel is
    1.0 at any cell: what [board_to_tensor] produces. *)
Definition one_hot (t : ndarray) : Prop :=
  (∀ c r f, c < 12 → r < 8 → f < 8 →
     np.getitem t c r f = Ok np.f0 ∨ np.getitem t c r f = Ok np.f1) ∧
  (∀ c1 c2 r f, c1 < 12 → c2 < 12 → r < 8 → f < 8 →
     np.getitem t c1 r f = Ok np.f1 → np.getitem t c2 r f = Ok np.f1 →
     c1 = c2).

#[global] Instance spec_float_eq_dec : EqDecision spec_float.
Proof. solve_decision. Defined.

(** The plane of a flag: 1.0 everywhere when it is set, else 0.0
    everywhere. *)
Definition flag_plane (b : bool) : plane :=
  np.full_plane 8 8 (if b then np.f1 else np.f0).

(** [min(n / 100.0, 1.0)] as it is stored in the float32 clock plane. *)
Definition clock_cell (clock : float64) : float32 :=
  np.to_float32 (py_min (truediv clock f64_100) f64_1).

(** The seven planes [board_to_tensor_extended] appends to the basic
    encoding. *)
Definition state_planes (board : Board) (clock : float64) : ndarray :=
  [ flag_plane (turn board);
    flag_plane (has_kingside_castling_rights board WHITE);
    flag_plane (has_queenside_castling_rights board WHITE);
    flag_plane (has_kingside_castling_rights board BLACK);
    flag_plane (has_queenside_castling_rights board BLACK);
    ep_plane (ep_square board);
    np.full_plane 8 8 (clock_cell clock) ].

(** The clock cell of each of the [fuel] clocks from [n] on is 1.0 from
    100 on and, below 100, under 1.0 and not under 0.0. *)
Fixpoint clock_cells_from (fuel : nat) (n : N) : bool :=
  match fuel with
  | 0 => true
  | S fuel' =>
      match float_of_int n with
      | Ok clock =>
          let v := clock_cell clock in
          (if (100 <=? n)%N
           then bool_decide (v = np.f1 :> spec_float)
           else np.gt np.f1 v && negb (np.gt np.f0 v))
          && clock_cells_from fuel' (N.succ n)
      | Raise _ => false
      end
  end.

(** A position whose halfmove clock does not fit a float. *)
Definition huge_clock : Board :=
  mkBoard ∅ WHITE false false false false None (2 ^ 1024)%N.

(** The same piece in the other colour. *)
Definition swap_color (piece : Piece) : Piece :=
  mkPiece (piece_type piece) (negb (color piece)).

(** The channel of the same piece type in the other colour. *)
Definition swap_channel (c : nat) : nat :=
  if decide (c < 6) then c + 6 else c - 6.

(** [q] has the pieces of [p] seen from the other side: ranks mirrored and
    colours swapped. *)
Definition mirrored_pieces (p q : Board) : Prop :=
  ∀ r f, r < 8 → f < 8 →
    piece_at q (square f (7 - r)) = swap_color <$> piece_at p (square f r).

(** [q] is [p] seen from the other side: pieces mirrored, the other side to
    move, castling rights exchanged between the colours, the en-passant
    square on the same file, the same halfmove clock. *)
Definition mirrored (p q : Board) : Prop :=
  mirrored_pieces p q ∧
  turn q = negb (turn p) ∧
  has_kingside_castling_rights q WHITE = has_kingside_castling_rights p BLACK ∧
  has_queenside_castling_rights q WHITE = has_queenside_castling_rights p BLACK ∧
  has_kingside_castling_rights q BLACK = has_kingside_castling_rights p WHITE ∧
  has_queenside_castling_rights q BLACK = has_queenside_castling_rights p WHITE ∧
  square_file <$> ep_square q = square_file <$> ep_square p ∧
  halfmove_clock q = halfmove_clock p.

(** [after_e4] seen from the other side: Black's e-pawn stands on e5,
    White is to move and e6 is the en-passant square. *)
Definition after_e4_mirrored : Board :=
  mkBoard (<[square 4 4 := mkPiece PAWN BLACK]>
             (delete (square 4 6) starting_pieces))
          WHITE true true true true (Some (square 4 5)) 0%N.

(** A rank line without its label: the texts of files a to h, in order. *)
Definition row_of (cell : nat → string) : string :=
  cell 0 +:+ cell 1 +:+ cell 2 +:+ cell 3 +:+
  cell 4 +:+ cell 5 +:+ cell 6 +:+ cell 7.

(** A rank line: the rank number, a blank, the texts of the files. *)
Definition rank_line (cell : nat → nat → string) (r : nat) : string :=
  pretty (r + 1) +:+ " " +:+ row_of (cell r).

(** The first of the channels [chs] above 0.5 at cell [(r, f)]. *)
Fixpoint lowest_active (t : ndarray) (r f : nat) (chs : list nat)
  : option nat :=
  match chs with
  | [] => None
  | c :: chs' =>
      if active t c r f then Some c else lowest_active t r f chs'
  end.

(** The two characters the combined view writes for a cell, given the
    channel it found. *)
Definition found_text (found : option nat) : string :=
  match found with
  | Some c => default "" (piece_symbols !! c) +:+ " "
  | None => ". "
  end.

(** The two characters for a square of a position: the letter of its
    piece, upper case for White and lower case for Black, or a dot. *)
Definition square_text (p : Board) (r f : nat) : string :=
  found_text (piece_channel <$> piece_at p (square f r)).

(** The two characters the single-channel view writes for a cell. *)
Definition mark_text (t : ndarray) (c r f : nat) : string :=
  if active t c r f then "1 " else ". ".

(** The plane a channel index selects in an array of [n] channels: a
    negative index counts from the end. *)
Definition wrapped (n : nat) (i : Z) : nat :=
  Z.to_nat (if decide (i < 0)%Z then (i + Z.of_nat n)%Z else i).

(** An array of 13 channels holding 0.5, the threshold itself, in every
    cell. *)
Definition all_half : ndarray := replicate 13 (np.full_plane 8 8 np.fhalf).

(** The basic encoding of [after_e4]. *)
Definition after_e4_basic : ndarray := returned (board_to_tensor after_e4).

(** [after_e4] with another game state: White to move, no castling rights,
    no en-passant square, clock 7. *)
Definition after_e4_other_state : Board :=
  mkBoard (pieces after_e4) WHITE false false false false None 7%N.

(** A position late in a game without captures or pawn moves. *)
Definition clock_150 : Board :=
  mkBoard ∅ WHITE false false false false None 150%N.

(** The Python float [0.1], and a float64 array of shape (19, 1, 2) that
    holds it in every cell. *)
Definition f64_tenth : float64 := S754_finite false 3602879701896397 (-55).
Definition tenths64 : ndarray := replicate 19 (np.full_plane 1 2 f64_tenth).

(** [0.1] rounded to float32, and the float32 array of the same shape. *)
Definition tenths32 : ndarray :=
  replicate 19 (np.full_plane 1 2 (np.to_float32 f64_tenth)).

(** An extended encoding with a twentieth channel of ones appended. *)
Definition twenty_channels : ndarray := after_e4_extended ++ [flag_plane true].

(** * Properties *)

(** ** Loops *)

Section loops.
Context {A S : Type}.
Implicit Types (l : list A) (body : A → S → result S) (s : S).

Lemma for_each_app l1 l2 body s :
  for_each (l1 ++ l2) body s = s' ← for_each l1 body s; for_each l2 body s'.
Proof.
  revert s. induction l1 as [|x l1 IH]; intros s; simpl; [done|].
  destruct (body x s) as [s1|e]; simpl; [apply IH | done].
Qed.

Lemma for_each_ext l body1 body2 s :
  (∀ x s', x ∈ l → body1 x s' = body2 x s') →
  for_each l body1 s = for_each l body2 s.
Proof.
  revert s. induction l as [|x l IH]; intros s Hb; simpl; [done|].
  rewrite (Hb x s) by left.
  destruct (body2 x s) as [s1|e]; simpl; [|done].
  apply IH. intros y s' Hy. apply Hb. by right.
Qed.

(** When every body either returns or raises [e], so does the loop. *)
Lemma for_each_ok_or l body e s :
  (∀ x s', x ∈ l → (∃ s'', body x s' = Ok s'') ∨ body x s' = Raise e) →
  (∃ s'', for_each l body s = Ok s'') ∨ for_each l body s = Raise e.
Proof.
  revert s. induction l as [|x l IH]; intros s Hb; simpl; [eauto|].
  destruct (Hb x s) as [[s1 ->] | ->]; simpl; [by left| |by right].
  apply IH. intros y s' Hy. apply Hb. by right.
Qed.

(** ... and the loop raises as soon as one element raises in every state. *)
Lemma for_each_raise l body e x s :
  (∀ y s', y ∈ l → (∃ s'', body y s' = Ok s'') ∨ body y s' = Raise e) →
  x ∈ l → (∀ s', body x s' = Raise e) →
  for_each l body s = Raise e.
Proof.
  intros Hb Hx Hr. revert s.
  induction l as [|y l IH]; intros s; [by apply elem_of_nil in Hx|].
  simpl. apply elem_of_cons in Hx as [<- | Hx].
  - by rewrite Hr.
  - destruct (Hb y s) as [[s1 ->] | ->]; simpl; [by left| |done].
    apply IH; [|done]. intros z s' Hz. apply Hb. by right.
Qed.
End loops.

(** A loop over [range(n)] with an invariant indexed by the number of
    iterations done. *)
Lemma for_range_inv {S : Type} (P : nat → S → Prop) n
    (body : nat → S → result S) (s : S) :
  P 0 s →
  (∀ k s1, k < n → P k s1 → ∃ s2, body k s1 = Ok s2 ∧ P (Datatypes.S k) s2) →
  ∃ s', for_each (range n) body s = Ok s' ∧ P n s'.
Proof.
  intros H0. unfold range. induction n as [|n IH]; intros Hstep.
  - exists s. by split.
  - destruct IH as (s1 & Hrun & HP); [intros k s1 ? ?; apply Hstep; [lia|done]|].
    destruct (Hstep n s1) as (s2 & Hb & HP2); [lia|done|].
    exists s2. split; [|done].
    rewrite seq_S, for_each_app, Hrun. simpl. by rewrite Hb.
Qed.

(** ** Squares *)

Lemma square_file_spec sq : square_file sq = sq mod 8.
Proof. unfold square_file. apply (Nat.land_ones sq 3). Qed.

Lemma square_rank_spec sq : square_rank sq = sq / 8.
Proof. unfold square_rank. apply (Nat.shiftr_div_pow2 sq 3). Qed.

Lemma square_file_lt sq : square_file sq < 8.
Proof. rewrite square_file_spec. apply Nat.mod_upper_bound. lia. Qed.

Lemma square_rank_lt sq : sq < 64 → square_rank sq < 8.
Proof. rewrite square_rank_spec. intros. apply Nat.Div0.div_lt_upper_bound. lia. Qed.

Lemma square_of_file_rank sq : square (square_file sq) (square_rank sq) = sq.
Proof.
  rewrite square_file_spec, square_rank_spec. unfold square.
  pose proof (Nat.div_mod_eq sq 8). lia.
Qed.

Lemma square_file_square f r : f < 8 → square_file (square f r) = f.
Proof.
  intros. rewrite square_file_spec. unfold square.
  rewrite Nat.add_comm, Nat.Div0.mod_add. by apply Nat.mod_small.
Qed.

Lemma square_rank_square f r : f < 8 → square_rank (square f r) = r.
Proof.
  intros. rewrite square_rank_spec. unfold square.
  rewrite Nat.add_comm, Nat.div_add by lia. rewrite Nat.div_small; lia.
Qed.

Lemma square_lt f r : f < 8 → r < 8 → square f r < 64.
Proof. unfold square. lia. Qed.

(** ** Reading and writing cells *)

Lemma getitem_zeros c h w i r f :
  i < c → r < h → f < w → np.getitem (np.zeros c h w) i r f = Ok np.f0.
Proof.
  intros. unfold np.getitem, np.zeros, np.full_plane.
  by rewrite !lookup_replicate_2.
Qed.

Lemma shape_zeros c h w : np.shape c h w (np.zeros c h w).
Proof.
  unfold np.shape, np.dims, np.zeros, np.full_plane.
  by rewrite !fmap_replicate, length_replicate.
Qed.

Lemma setitem_spec t c r f v v0 :
  np.getitem t c r f = Ok v0 →
  ∃ t', np.setitem t c r f v = Ok t' ∧ np.dims t' = np.dims t ∧
    ∀ c' r' f', np.getitem t' c' r' f' =
      if decide (c' = c ∧ r' = r ∧ f' = f) then Ok v else np.getitem t c' r' f'.
Proof.
  unfold np.getitem, np.setitem. intros Hget.
  destruct (t !! c) as [p|] eqn:Hc; [|done].
  destruct (p !! r) as [row|] eqn:Hr; [|done].
  destruct (row !! f) as [x|] eqn:Hf; [|done].
  apply lookup_lt_Some in Hf as Hf'.
  rewrite decide_True by done. eexists. split; [done|]. split.
  - unfold np.dims. rewrite list_fmap_insert.
    apply list_insert_id. rewrite list_lookup_fmap, Hc. simpl. f_equal.
    rewrite list_fmap_insert. symmetry. apply list_insert_id.
    rewrite list_lookup_fmap, Hr. simpl. by rewrite length_insert.
  - intros c' r' f'. apply lookup_lt_Some in Hc as Hc'. apply lookup_lt_Some in Hr as Hr'.
    destruct (decide (c' = c)) as [->|Hnc].
    + rewrite list_lookup_insert_eq by done.
      destruct (decide (r' = r)) as [->|Hnr].
      * rewrite list_lookup_insert_eq by done.
        destruct (decide (f' = f)) as [->|Hnf].
        -- rewrite list_lookup_insert_eq by done. by rewrite decide_True.
        -- rewrite list_lookup_insert_ne by done.
           rewrite decide_False by (intros (?&?&?); done). by rewrite Hc, Hr.
      * rewrite list_lookup_insert_ne by done.
        rewrite decide_False by (intros (?&?&?); done). by rewrite Hc.
    + rewrite list_lookup_insert_ne by done.
      by rewrite decide_False by (intros (?&?&?); done).
Qed.

(** ** The basic encoding *)

Lemma piece_channel_lt piece : piece_channel piece < 12.
Proof. destruct piece as [[] []]; cbv; lia. Qed.

Lemma board_to_tensor_spec board :
  ∃ t, board_to_tensor board = Ok t ∧ np.shape 12 8 8 t ∧
    ∀ c r f, c < 12 → r < 8 → f < 8 →
      np.getitem t c r f = Ok (cell_of board c r f).
Proof.
  unfold board_to_tensor, SQUARES.
  set (body := λ (sq : Square) (tensor : ndarray), _).
  destruct (for_range_inv (λ k t,
    np.dims t = np.dims (np.zeros 12 8 8) ∧
    ∀ c r f, c < 12 → r < 8 → f < 8 →
      np.getitem t c r f =
        Ok (if decide (square f r < k ∧
                       piece_channel <$> piece_at board (square f r) = Some c)
            then np.f1 else np.f0)) 64 body (np.zeros 12 8 8))
    as (t & Hrun & Hdims & Hcells).
  - split; [done|]. intros c r f ???.
    rewrite getitem_zeros by done. by rewrite decide_False by lia.
  - intros k t Hk [Hdims Hcells]. unfold body.
    destruct (piece_at board k) as [piece|] eqn:Hp.
    + pose proof (piece_channel_lt piece) as Hpc.
      pose proof (square_rank_lt k Hk) as Hrk.
      pose proof (square_file_lt k) as Hfk.
      destruct (setitem_spec t (piece_channel piece) (square_rank k)
                  (square_file k) np.f1 _ (Hcells _ _ _ Hpc Hrk Hfk))
        as (t' & -> & Hd' & Hget').
      exists t'. split; [done|]. split; [congruence|].
      intros c r f Hc Hr Hf. rewrite Hget', Hcells by done.
      destruct (decide (square f r = k)) as [Hsq|Hsq].
      * assert (r = square_rank k ∧ f = square_file k) as [Hr' Hf'].
        { subst k. by rewrite square_rank_square, square_file_square. }
        rewrite Hsq, Hp. simpl.
        destruct (decide (c = piece_channel piece)) as [->|Hne].
        -- rewrite !decide_True; [done| split; [lia|done] | done].
        -- rewrite decide_False by (intros (?&?&?); done).
           rewrite decide_False by lia.
           rewrite decide_False; [done|]. intros [_ ?]. congruence.
      * rewrite decide_False.
        2:{ intros (_ & -> & ->). by rewrite square_of_file_rank in Hsq. }
        f_equal. apply decide_ext. split; intros [? ?]; split; (lia || done).
    + exists t. split; [done|]. split; [done|].
      intros c r f Hc Hr Hf. rewrite Hcells by done. f_equal.
      destruct (decide (square f r = k)) as [Hsq|Hsq].
      * rewrite !decide_False; [done| |]; rewrite Hsq, Hp; intros [_ ?]; done.
      * apply decide_ext. split; intros [? ?]; split; (lia || done).
  - exists t. split; [done|]. split.
    + unfold np.shape. rewrite Hdims. apply shape_zeros.
    + intros c r f Hc Hr Hf. rewrite Hcells by done. unfold cell_of.
      f_equal. apply decide_ext. pose proof (square_lt f r Hf Hr).
      split; [by intros [_ ?] | by split].
Qed.

(** ** Decoding *)

Lemma range_elem n k : k ∈ range n ↔ k < n.
Proof. unfold range. rewrite elem_of_seq. lia. Qed.

Lemma square_eq_iff f r s :
  f < 8 → square f r = s ↔ square_rank s = r ∧ square_file s = f.
Proof.
  intros Hf. split.
  - intros <-. by rewrite square_rank_square, square_file_square.
  - intros [<- <-]. apply square_of_file_rank.
Qed.

Lemma place_if_active_spec t c r f pt col b v :
  np.getitem t c r f = Ok v →
  place_if_active t c r f pt col b =
    Ok (if active t c r f
        then set_piece_at b (square f r) (mkPiece pt col) else b).
Proof.
  intros Hv. unfold place_if_active, active. rewrite Hv. simpl.
  by destruct (np.gt v np.fhalf).
Qed.

Lemma decode_row_spec t c r pt col b :
  r < 8 → (∀ f, f < 8 → ∃ v, np.getitem t c r f = Ok v) →
  ∃ b', for_each (range 8)
          (λ f b, place_if_active t c r f pt col b) b = Ok b' ∧
    game_state b' = game_state b ∧
    ∀ s, pieces b' !! s =
      if decide (square_rank s = r ∧ active t c r (square_file s) = true)
      then Some (mkPiece pt col) else pieces b !! s.
Proof.
  intros Hr Hread.
  destruct (for_range_inv (λ j b',
    game_state b' = game_state b ∧
    ∀ s, pieces b' !! s =
      if decide (square_rank s = r ∧ square_file s < j ∧
                 active t c r (square_file s) = true)
      then Some (mkPiece pt col) else pieces b !! s) 8
    (λ f b, place_if_active t c r f pt col b) b) as (b' & Hrun & Hgs & Hp).
  - split; [done|]. intros s. by rewrite decide_False by lia.
  - intros j b1 Hj [Hgs Hp]. destruct (Hread j Hj) as [v Hv].
    rewrite (place_if_active_spec _ _ _ _ _ _ _ v Hv).
    eexists. split; [done|].
    destruct (active t c r j) eqn:Hact.
    + split; [done|]. intros s. simpl.
      destruct (decide (square j r = s)) as [Hs|Hs].
      * rewrite Hs, lookup_insert_eq.
        apply square_eq_iff in Hs as [Hs1 Hs2]; [|done].
        rewrite decide_True; [done|]. rewrite Hs2. split; [done|]. split; [lia|done].
      * rewrite lookup_insert_ne by done. rewrite Hp.
        apply decide_ext. rewrite square_eq_iff in Hs by done.
        split; intros (? & ? & ?); (split; [done|]); (split; [|done]); [lia|].
        destruct (decide (square_file s = j)); [tauto|lia].
    + split; [done|]. intros s. rewrite Hp. apply decide_ext.
      split; intros (? & ? & Ha); (split; [done|]); (split; [|done]); [lia|].
      destruct (decide (square_file s = j)) as [Hs|]; [|lia].
      rewrite Hs in Ha. congruence.
  - exists b'. split; [done|]. split; [done|]. intros s. rewrite Hp.
    apply decide_ext. pose proof (square_file_lt s). tauto.
Qed.

Lemma decode_channel_spec t c pt col b :
  (∀ r f, r < 8 → f < 8 → ∃ v, np.getitem t c r f = Ok v) →
  ∃ b', for_each (range 8) (λ r b,
          for_each (range 8)
            (λ f b, place_if_active t c r f pt col b) b) b = Ok b' ∧
    game_state b' = game_state b ∧
    ∀ s, pieces b' !! s =
      if decide (s < 64 ∧ active t c (square_rank s) (square_file s) = true)
      then Some (mkPiece pt col) else pieces b !! s.
Proof.
  intros Hread.
  destruct (for_range_inv (λ i b',
    game_state b' = game_state b ∧
    ∀ s, pieces b' !! s =
      if decide (square_rank s < i ∧
                 active t c (square_rank s) (square_file s) = true)
      then Some (mkPiece pt col) else pieces b !! s) 8
    (λ r b, for_each (range 8)
              (λ f b, place_if_active t c r f pt col b) b) b)
    as (b' & Hrun & Hgs & Hp).
  - split; [done|]. intros s. by rewrite decide_False by lia.
  - intros i b1 Hi [Hgs Hp].
    destruct (decode_row_spec t c i pt col b1 Hi (λ f, Hread i f Hi))
      as (b2 & -> & Hgs2 & Hp2).
    exists b2. split; [done|]. split; [congruence|].
    intros s. rewrite Hp2, Hp.
    destruct (decide (square_rank s = i)) as [Hs|Hs].
    + destruct (active t c i (square_file s)) eqn:Ha.
      * rewrite !decide_True; [done| |done]. rewrite Hs. split; [lia|done].
      * rewrite !decide_False; [done| | |]; rewrite ?Hs, ?Ha; intros [? ?]; (done || lia).
    + rewrite decide_False by tauto. apply decide_ext.
      split; intros [? ?]; (split; [lia|done]).
  - exists b'. split; [done|]. split; [done|]. intros s. rewrite Hp.
    apply decide_ext. rewrite square_rank_spec.
    split; intros [Hlt ?]; (split; [|done]).
    + pose proof (Nat.div_mod_eq s 8).
      pose proof (Nat.mod_upper_bound s 8). lia.
    + apply Nat.Div0.div_lt_upper_bound. lia.
Qed.

Lemma dict_get_channel c :
  c < 12 →
  ∃ pt col, dict_get channel_to_piece c = Ok (pt, col) ∧
            channel_piece c = Some (mkPiece pt col).
Proof.
  intros Hc. unfold dict_get, channel_piece.
  destruct (channel_to_piece !! c) as [[pt col]|] eqn:Hl.
  - by exists pt, col.
  - apply lookup_ge_None in Hl. simpl in Hl. lia.
Qed.

(** On an array with at least 12 channels of at least 8 by 8 cells,
    [tensor_to_board] returns; the game state is that of the empty board
    and each square holds the piece of its highest active channel. *)
Lemma tensor_to_board_spec t :
  readable t →
  ∃ b, tensor_to_board t = Ok b ∧
    game_state b = game_state chess.empty ∧
    ∀ s, pieces b !! s =
      if decide (s < 64) then winner t 12 (square_rank s) (square_file s)
      else None.
Proof.
  intros Hread. unfold tensor_to_board.
  apply (for_range_inv (λ k b,
    game_state b = game_state chess.empty ∧
    ∀ s, pieces b !! s =
      if decide (s < 64) then winner t k (square_rank s) (square_file s)
      else None)).
  - split; [done|]. intros s. simpl. by destruct (decide (s < 64)).
  - intros k b Hk [Hgs Hp].
    destruct (dict_get_channel k Hk) as (pt & col & -> & Hcp). cbn [mbind result_bind].
    destruct (decode_channel_spec t k pt col b (λ r f, Hread k r f Hk))
      as (b' & -> & Hgs' & Hp').
    exists b'. split; [done|]. split; [congruence|].
    intros s. rewrite Hp', Hp. simpl.
    destruct (decide (s < 64)) as [Hs|Hs].
    + destruct (active t k (square_rank s) (square_file s)).
      * by rewrite decide_True.
      * by rewrite decide_False by (by intros [_ ?]).
    + by rewrite decide_False by tauto.
Qed.

Lemma getitem_ok_or t c r f :
  (∃ v, np.getitem t c r f = Ok v) ∨ np.getitem t c r f = Raise IndexError.
Proof.
  unfold np.getitem.
  destruct (t !! c) as [p|]; [|by right].
  destruct (p !! r) as [row|]; [|by right].
  destruct (row !! f) as [v|]; [left; by exists v | by right].
Qed.

Lemma place_if_active_ok_or t c r f pt col b :
  (∃ b', place_if_active t c r f pt col b = Ok b') ∨
  place_if_active t c r f pt col b = Raise IndexError.
Proof.
  unfold place_if_active.
  destruct (getitem_ok_or t c r f) as [[v ->] | ->]; [left|by right].
  simpl. destruct (np.gt v np.fhalf); eauto.
Qed.

(** A missing cell among those read makes [tensor_to_board] raise. *)
Lemma tensor_to_board_raise t c r f :
  c < 12 → r < 8 → f < 8 →
  np.getitem t c r f = Raise IndexError →
  tensor_to_board t = Raise IndexError.
Proof.
  intros Hc Hr Hf Hget. unfold tensor_to_board.
  assert (∀ c' pt col r' b,
    (∃ b', for_each (range 8)
       (λ f b, place_if_active t c' r' f pt col b) b = Ok b') ∨
    for_each (range 8)
       (λ f b, place_if_active t c' r' f pt col b) b = Raise IndexError)
    as Hrow.
  { intros. apply for_each_ok_or. intros. apply place_if_active_ok_or. }
  apply (for_each_raise _ _ _ c).
  - intros k b Hk%range_elem.
    destruct (dict_get_channel k Hk) as (pt & col & -> & _). cbn [mbind result_bind].
    apply for_each_ok_or. intros. apply Hrow.
  - by apply range_elem.
  - intros b. destruct (dict_get_channel c Hc) as (pt & col & -> & _). cbn [mbind result_bind].
    apply (for_each_raise _ _ _ r).
    + intros. apply Hrow.
    + by apply range_elem.
    + intros b'. apply (for_each_raise _ _ _ f).
      * intros. apply place_if_active_ok_or.
      * by apply range_elem.
      * intros b''. unfold place_if_active. by rewrite Hget.
Qed.

(** [tensor_to_board] reads channels 0 to 11, ranks and files 0 to 7,
    and nothing else. *)
Lemma tensor_to_board_ext t1 t2 :
  (∀ c r f, c < 12 → r < 8 → f < 8 →
     np.getitem t1 c r f = np.getitem t2 c r f) →
  tensor_to_board t1 = tensor_to_board t2.
Proof.
  intros Heq. unfold tensor_to_board.
  apply for_each_ext. intros c b Hc%range_elem.
  destruct (dict_get channel_to_piece c) as [[pt col]|e]; cbn [mbind result_bind]; [|done].
  apply for_each_ext. intros r b' Hr%range_elem.
  apply for_each_ext. intros f b'' Hf%range_elem.
  unfold place_if_active. by rewrite Heq.
Qed.

Lemma shape_readable c h w t :
  np.shape c h w t → 12 ≤ c → 8 ≤ h → 8 ≤ w → readable t.
Proof.
  unfold np.shape, np.dims. intros Hsh Hc Hh Hw i r f Hi Hr Hf.
  unfold np.getitem.
  assert (∀ j, j < c → ∃ p : plane, t !! j = Some p ∧
            length <$> p = replicate h w) as Hplane.
  { intros j Hj.
    pose proof (f_equal (λ l : list (list nat), l !! j) Hsh) as Hl. simpl in Hl.
    rewrite list_lookup_fmap, lookup_replicate_2 in Hl by done.
    destruct (t !! j) as [p|]; [|done]. exists p. split; [done|].
    simpl in Hl. congruence. }
  destruct (Hplane i) as (p & -> & Hp); [lia|].
  pose proof (f_equal (λ l : list nat, l !! r) Hp) as Hl. simpl in Hl.
  rewrite list_lookup_fmap, lookup_replicate_2 in Hl by lia.
  destruct (p !! r) as [row|]; [|done]. simpl in Hl.
  destruct (row !! f) as [v|] eqn:Hv; [by exists v|].
  apply lookup_ge_None in Hv. simplify_eq. exfalso. lia.
Qed.

(** [winner] is the channel of highest index among the active ones. *)
Lemma winner_highest t k r f c :
  c < k → active t c r f = true →
  (∀ c', c' < k → active t c' r f = true → c' ≤ c) →
  winner t k r f = channel_piece c.
Proof.
  induction k as [|k IH]; intros Hc Hact Hmax; [lia|]. simpl.
  destruct (active t k r f) eqn:Hk.
  - assert (k ≤ c) by (apply Hmax; [lia|done]).
    by replace k with c by lia.
  - destruct (decide (c = k)) as [->|]; [congruence|].
    apply IH; [lia|done|]. intros c' ? ?. apply Hmax; [lia|done].
Qed.

Lemma winner_none t k r f :
  (∀ c, c < k → active t c r f = false) → winner t k r f = None.
Proof.
  induction k as [|k IH]; intros Hno; [done|]. simpl.
  rewrite Hno by lia. apply IH. intros. apply Hno. lia.
Qed.

(** Among finitely many channels with one active, some active channel is
    the highest. *)
Lemma highest_active t k r f c :
  c < k → active t c r f = true →
  ∃ m, m < k ∧ active t m r f = true ∧
       ∀ c', c' < k → active t c' r f = true → c' ≤ m.
Proof.
  induction k as [|k IH]; intros Hc Hact; [lia|].
  destruct (active t k r f) eqn:Hk.
  - exists k. split; [lia|]. split; [done|]. intros. lia.
  - destruct (decide (c = k)) as [->|]; [congruence|].
    destruct IH as (m & Hm & Hma & Hmax); [lia|done|].
    exists m. split; [lia|]. split; [done|]. intros c' Hc' Ha.
    destruct (decide (c' = k)) as [->|]; [congruence|].
    apply Hmax; [lia|done].
Qed.

Lemma channel_piece_channel piece :
  channel_piece (piece_channel piece) = Some piece.
Proof. by destruct piece as [[] []]. Qed.

Lemma for_each_preserves {A S : Type} (Q : S → Prop) (l : list A)
    (body : A → S → result S) (s s' : S) :
  (∀ x s1 s2, body x s1 = Ok s2 → Q s1 → Q s2) →
  Q s → for_each l body s = Ok s' → Q s'.
Proof.
  intros Hb. revert s. induction l as [|x l IH]; intros s HQ; simpl.
  - by intros [= <-].
  - destruct (body x s) as [s1|e] eqn:Hx; simpl; [|done].
    apply IH. by eapply Hb.
Qed.

Lemma tensor_to_board_game_state t b :
  tensor_to_board t = Ok b → game_state b = game_state chess.empty.
Proof.
  unfold tensor_to_board.
  set (Q := λ b : Board, game_state b = game_state chess.empty).
  apply (for_each_preserves Q); [|done].
  intros c b1 b2 Hrun HQ.
  destruct (dict_get channel_to_piece c) as [[pt col]|e];
    cbn [mbind result_bind] in Hrun; [|done].
  revert Hrun. apply (for_each_preserves Q); [|done].
  intros r b3 b4 Hrun HQ'. revert Hrun. apply (for_each_preserves Q); [|done].
  intros f b5 b6. unfold place_if_active.
  destruct (np.getitem t c r f) as [v|e]; simpl; [|done].
  destruct (np.gt v np.fhalf); intros [= <-] HQ''; done.
Qed.

Lemma active_encoded p t c r f :
  (∀ c r f, c < 12 → r < 8 → f < 8 →
     np.getitem t c r f = Ok (cell_of p c r f)) →
  c < 12 → r < 8 → f < 8 →
  active t c r f =
    bool_decide (piece_channel <$> piece_at p (square f r) = Some c).
Proof.
  intros Hcells Hc Hr Hf. unfold active. rewrite Hcells by done.
  unfold cell_of. by case_decide; [rewrite bool_decide_true|rewrite bool_decide_false].
Qed.

(** ** Round trip, one-hot cells and decoding *)

(** C1.  Decoding the basic encoding of a position gives back its piece
    placement: [board_to_tensor] returns an array, [tensor_to_board]
    returns a position on it, and on each of the 64 squares that position
    has the piece of the original (same type and colour) or is empty where
    the original is.  The six standard piece types are all a [Piece] can
    have. *)
Theorem decode_encode_basic (p : Board) :
  ∃ t b, board_to_tensor p = Ok t ∧ tensor_to_board t = Ok b ∧
    ∀ sq, sq < 64 → piece_at b sq = piece_at p sq.
Proof.
  destruct (board_to_tensor_spec p) as (t & Henc & Hshape & Hcells).
  assert (readable t) as Hread.
  { intros c r f ???. eexists. by apply Hcells. }
  destruct (tensor_to_board_spec t Hread) as (b & Hdec & _ & Hp).
  exists t, b. split; [done|]. split; [done|].
  intros sq Hsq. unfold piece_at at 1. rewrite Hp, decide_True by done.
  pose proof (square_rank_lt sq Hsq) as Hr.
  pose proof (square_file_lt sq) as Hf.
  assert (∀ c, c < 12 → active t c (square_rank sq) (square_file sq) =
            bool_decide (piece_channel <$> piece_at p sq = Some c)) as Hact.
  { intros c Hc. rewrite (active_encoded p) by done.
    by rewrite square_of_file_rank. }
  destruct (piece_at p sq) as [piece|] eqn:Hpc.
  - rewrite <-channel_piece_channel.
    pose proof (piece_channel_lt piece).
    apply winner_highest; [done| |].
    + rewrite Hact by done. by apply bool_decide_eq_true.
    + intros c' Hc'. rewrite Hact by done.
      intros [=->]%bool_decide_eq_true. done.
  - apply winner_none. intros c Hc. rewrite Hact by done.
    by apply bool_decide_eq_false.
Qed.

(** C3.  For every position, [board_to_tensor] returns an array of shape
    (12, 8, 8) of float32 cells, every cell is 0.0 or 1.0, and at a cell
    (rank, file) at most one of the 12 channels is 1.0. *)
Theorem encode_basic_one_hot (p : Board) :
  ∃ t, board_to_tensor p = Ok t ∧ np.shape 12 8 8 t ∧
    (∀ c r f, c < 12 → r < 8 → f < 8 →
       np.getitem t c r f = Ok np.f0 ∨ np.getitem t c r f = Ok np.f1) ∧
    (∀ c1 c2 r f, c1 < 12 → c2 < 12 → r < 8 → f < 8 →
       np.getitem t c1 r f = Ok np.f1 → np.getitem t c2 r f = Ok np.f1 →
       c1 = c2).
Proof.
  destruct (board_to_tensor_spec p) as (t & Henc & Hshape & Hcells).
  exists t. split; [done|]. split; [done|]. split.
  - intros c r f ???. rewrite Hcells by done. unfold cell_of.
    case_decide; eauto.
  - intros c1 c2 r f ????. rewrite !Hcells by done. unfold cell_of.
    repeat case_decide; intros [=] [=]. congruence.
Qed.

(** C5.  On a 12-channel array with two or more channels above 0.5 at the
    same cell, [tensor_to_board] raises nothing and puts on that square the
    piece of the highest-indexed channel above 0.5 there. *)
Theorem decode_multi_hot_last_wins (t : ndarray) (r f c1 c2 : nat) :
  np.shape 12 8 8 t → r < 8 → f < 8 → c1 < 12 → c2 < 12 → c1 ≠ c2 →
  active t c1 r f = true → active t c2 r f = true →
  ∃ b m pt col, tensor_to_board t = Ok b ∧
    m < 12 ∧ active t m r f = true ∧
    (∀ c, c < 12 → active t c r f = true → c ≤ m) ∧
    channel_to_piece !! m = Some (pt, col) ∧
    piece_at b (square f r) = Some (mkPiece pt col).
Proof.
  intros Hshape Hr Hf Hc1 Hc2 _ Ha1 _.
  assert (readable t) as Hread by (by eapply shape_readable).
  destruct (tensor_to_board_spec t Hread) as (b & Hdec & _ & Hp).
  destruct (highest_active t 12 r f c1 Hc1 Ha1) as (m & Hm & Hma & Hmax).
  destruct (dict_get_channel m Hm) as (pt & col & Hget & Hcp).
  exists b, m, pt, col. split; [done|]. split; [done|]. split; [done|].
  split; [done|]. split.
  - unfold dict_get in Hget. by destruct (channel_to_piece !! m) as [[]|]; simplify_eq.
  - unfold piece_at. rewrite Hp, decide_True by (by apply square_lt).
    rewrite square_rank_square, square_file_square by done.
    rewrite <-Hcp. by apply winner_highest.
Qed.

(** C8.  Two 19-channel arrays that agree on channels 0 to 11 decode to
    the same position, piece placement and game state alike, whatever
    channels 12 to 18 hold. *)
Theorem decode_ignores_extended (x y : ndarray) :
  np.shape 19 8 8 x → np.shape 19 8 8 y → take 12 x = take 12 y →
  ∃ b, tensor_to_board x = Ok b ∧ tensor_to_board y = Ok b.
Proof.
  intros Hx Hy Heq.
  assert (readable x) as Hread by (eapply shape_readable; [done|lia..]).
  destruct (tensor_to_board_spec x Hread) as (b & Hdec & _).
  exists b. split; [done|]. rewrite <-Hdec. apply tensor_to_board_ext.
  intros c r f Hc _ _. unfold np.getitem.
  by rewrite <-(lookup_take_lt y 12 c), <-Heq, lookup_take_lt.
Qed.

(** C10.  Whatever the array holds, a position returned by
    [tensor_to_board] has the game state of the empty board it starts
    from: White to move, no castling rights on either side, no en-passant
    square, halfmove clock 0.  A position is returned for every array with
    at least 12 channels of at least 8 by 8 cells. *)
Theorem decode_default_state (t : ndarray) :
  (∀ b, tensor_to_board t = Ok b →
     turn b = WHITE ∧
     has_kingside_castling_rights b WHITE = false ∧
     has_queenside_castling_rights b WHITE = false ∧
     has_kingside_castling_rights b BLACK = false ∧
     has_queenside_castling_rights b BLACK = false ∧
     ep_square b = None ∧
     halfmove_clock b = 0%N) ∧
  (∀ c h w, np.shape c h w t → 12 ≤ c → 8 ≤ h → 8 ≤ w →
     ∃ b, tensor_to_board t = Ok b).
Proof.
  split.
  - intros b Hgs%tensor_to_board_game_state.
    unfold game_state in Hgs. simpl in Hgs. by simplify_eq.
  - intros c h w Hsh Hc Hh Hw.
    destruct (tensor_to_board_spec t) as (b & Hb & _); [|by exists b].
    by eapply shape_readable.
Qed.

(** ** Flipping *)

Lemma plane_dims_flip h w p : plane_dims h w p → plane_dims h w (np.flip p).
Proof.
  unfold plane_dims, np.flip. intros Hp.
  by rewrite fmap_reverse, Hp, reverse_replicate.
Qed.

Lemma plane_dims_map h w g p :
  plane_dims h w p → plane_dims h w (np.map_plane g p).
Proof.
  unfold plane_dims, np.map_plane. intros <-.
  rewrite <-list_fmap_compose. apply list_fmap_ext. intros _ row _. simpl.
  apply length_fmap.
Qed.

Lemma shape_planes c h w t :
  np.shape c h w t ↔ length t = c ∧ Forall (plane_dims h w) t.
Proof.
  unfold np.shape, np.dims, plane_dims. split.
  - intros Hsh.
    pose proof (f_equal length Hsh) as Hlen.
    rewrite length_fmap, length_replicate in Hlen.
    split; [done|]. apply Forall_lookup. intros i p Hp.
    pose proof (f_equal (λ l : list (list nat), l !! i) Hsh) as Hl.
    simpl in Hl. rewrite list_lookup_fmap, Hp in Hl. simpl in Hl.
    apply lookup_lt_Some in Hp as Hi.
    rewrite lookup_replicate_2 in Hl by lia. congruence.
  - intros [<- Hall]. induction Hall as [|p t Hp _ IH]; [done|].
    rewrite fmap_cons, Hp, IH. done.
Qed.

Create HintDb dims.
#[local] Hint Resolve plane_dims_flip plane_dims_map : dims.

(** One store [flipped[i] = p] into an array whose plane [i] has the
    dimensions of [p]. *)
Lemma setplane_ok h w (t : ndarray) i (q p : plane) :
  t !! i = Some q → plane_dims h w q → plane_dims h w p →
  np.setplane t i p = Ok (<[i := p]> t).
Proof.
  unfold np.setplane, plane_dims. intros -> Hq Hp.
  by rewrite decide_True by congruence.
Qed.

#[local] Arguments np.flip : simpl never.
#[local] Arguments np.rsub : simpl never.
#[local] Arguments np.map_plane : simpl never.

#[local] Arguments np.setplane : simpl never.
#[local] Arguments decide : simpl never.

(** Run [flip_board_tensor] one statement at a time on an array whose
    leading planes are spelled out: a store into a plane of the right
    dimensions, or a test on the number of channels. *)
Ltac flip_step :=
  cbn;
  try first
    [ erewrite setplane_ok; [ | reflexivity | by eauto with dims .. ]
    | rewrite decide_True by (rewrite ?length_app; simpl; lia)
    | rewrite decide_False by (rewrite ?length_app; simpl; lia) ].

Section flip_planes.
Context (dt : np.dtype) (h w : nat).
Context (p0 p1 p2 p3 p4 p5 p6 p7 p8 p9 p10 p11 : plane).
Context (Hdims : Forall (plane_dims h w)
                   [p0; p1; p2; p3; p4; p5; p6; p7; p8; p9; p10; p11]).

Local Abbreviation pieces12 :=
  [p0; p1; p2; p3; p4; p5; p6; p7; p8; p9; p10; p11].
Local Abbreviation flipped12 :=
  [np.flip p6; np.flip p7; np.flip p8; np.flip p9; np.flip p10; np.flip p11;
   np.flip p0; np.flip p1; np.flip p2; np.flip p3; np.flip p4; np.flip p5].

(** The colour swap and rank mirror of channels 0 to 11. *)
Lemma flip_loop (rest : ndarray) :
  for_each (range 6) (λ i flipped,
    hi ← np.getplane (pieces12 ++ rest) (i + 6);
    flipped ← np.setplane flipped i (np.flip hi);
    lo ← np.getplane (pieces12 ++ rest) i;
    np.setplane flipped (i + 6) (np.flip lo))
    (np.zeros_like (pieces12 ++ rest))
  = Ok (flipped12 ++ np.zeros_like rest).
Proof using Hdims.
  repeat (apply Forall_cons in Hdims as [? Hdims]).
  unfold range, np.zeros_like. simpl seq.
  do 13 flip_step. done.
Qed.

(** Exactly 12 channels: only the loop runs. *)
Lemma flip_12 : flip_board_tensor dt pieces12 = Ok flipped12.
Proof using Hdims.
  pose proof (flip_loop []) as Hloop. simpl app in Hloop.
  unfold flip_board_tensor. rewrite Hloop. by repeat flip_step.
Qed.

(** 13 to 16 channels: the extended branch is entered and reads a plane
    that is not there. *)
Lemma flip_13_16 (rest : ndarray) :
  Forall (plane_dims h w) rest → 1 ≤ length rest ≤ 4 →
  flip_board_tensor dt (pieces12 ++ rest) = Raise IndexError.
Proof using Hdims.
  intros Hrest Hlen. unfold flip_board_tensor. rewrite flip_loop.
  destruct rest as [|p12 [|p13 [|p14 [|p15 [|p16 rest]]]]];
    simpl in Hlen; try lia;
    repeat (apply Forall_cons in Hrest as [? Hrest]);
    by repeat flip_step.
Qed.

Context (p12 p13 p14 p15 p16 : plane).
Context (Hdims' : Forall (plane_dims h w) [p12; p13; p14; p15; p16]).

Local Abbreviation state5 := [p12; p13; p14; p15; p16].
Local Abbreviation flipped5 :=
  [np.rsub dt (np.one dt) p12; p15; p16; p13; p14].

(** 17 channels or more: channels 12 to 16 are transformed, channels 17
    and 18 when they are there, and any further channel stays zero. *)
Lemma flip_ge17 (rest : ndarray) :
  Forall (plane_dims h w) rest →
  flip_board_tensor dt (pieces12 ++ state5 ++ rest) =
    Ok (flipped12 ++ flipped5 ++
        match rest with
        | [] => []
        | [p17] => [np.flip p17]
        | p17 :: p18 :: rest' => np.flip p17 :: p18 :: np.zeros_like rest'
        end).
Proof using Hdims Hdims'.
  intros Hrest. unfold flip_board_tensor. rewrite flip_loop.
  repeat (apply Forall_cons in Hdims' as [? Hdims']).
  destruct rest as [|p17 [|p18 rest]];
    repeat (apply Forall_cons in Hrest as [? Hrest]);
    by repeat flip_step.
Qed.
End flip_planes.

(** Peel the first plane off an array known to have one. *)
Ltac uncons x Hlen :=
  destruct x as [|? x]; [simpl in Hlen; lia|].

(** Fewer than 12 channels: the loop reads a plane that is not there. *)
Lemma flip_lt_12 dt c h w (x : ndarray) :
  np.shape c h w x → c < 12 → flip_board_tensor dt x = Raise IndexError.
Proof.
  intros [Hlen Hall]%shape_planes Hc.
  unfold flip_board_tensor, range, np.zeros_like. simpl seq.
  do 12 (destruct x as [|? x];
         [ repeat (apply Forall_cons in Hall as [? Hall]); by repeat flip_step
         | ]).
  simpl in Hlen. lia.
Qed.

Lemma flip_ge17_returns dt c h w (x : ndarray) :
  np.shape c h w x → 17 ≤ c →
  ∃ y, flip_board_tensor dt x = Ok y ∧ np.shape c h w y.
Proof.
  intros [Hlen Hall]%shape_planes Hc.
  do 17 uncons x Hlen.
  apply (Forall_app _ [_;_;_;_;_;_;_;_;_;_;_;_]) in Hall as [H12 Hrest].
  apply (Forall_app _ [_;_;_;_;_]) in Hrest as [H5 Hrest].
  eexists. split; [by apply (flip_ge17 dt h w)|].
  apply shape_planes.
  repeat (apply Forall_cons in H12 as [? H12]).
  repeat (apply Forall_cons in H5 as [? H5]).
  destruct x as [|p17 [|p18 x]];
    repeat (apply Forall_cons in Hrest as [? Hrest]).
  - split; [done|]. repeat constructor; eauto with dims.
  - split; [done|]. repeat constructor; eauto with dims.
  - split.
    + rewrite <-Hlen. unfold np.zeros_like. simpl. by rewrite length_fmap.
    + repeat (apply Forall_cons; split; [by eauto with dims|]).
      apply Forall_fmap. eapply Forall_impl; [done|].
      intros p Hp. simpl. by apply plane_dims_map.
Qed.

Lemma flip_12_returns dt h w (x : ndarray) :
  np.shape 12 h w x →
  ∃ y, flip_board_tensor dt x = Ok y ∧ np.shape 12 h w y.
Proof.
  intros [Hlen Hall]%shape_planes.
  do 12 uncons x Hlen. destruct x; [|simpl in Hlen; lia].
  eexists. split; [by apply (flip_12 dt h w)|].
  apply shape_planes. split; [done|].
  repeat (apply Forall_cons in Hall as [? Hall]).
  repeat constructor; eauto with dims.
Qed.

Lemma rsub_rsub dt (p : plane) :
  Forall (Forall (binary_in dt)) p →
  np.rsub dt (np.one dt) (np.rsub dt (np.one dt) p) = p.
Proof.
  unfold np.rsub, np.map_plane. intros Hp.
  rewrite <-list_fmap_compose.
  rewrite <-(list_fmap_id p) at 2. apply Forall_fmap_ext.
  eapply Forall_impl; [done|]. intros row Hrow. simpl.
  rewrite <-list_fmap_compose.
  rewrite <-(list_fmap_id row) at 2. apply Forall_fmap_ext.
  eapply Forall_impl; [done|]. by intros v [-> | ->]; destruct dt.
Qed.

Lemma flip_flip (p : plane) : np.flip (np.flip p) = p.
Proof. apply reverse_involutive. Qed.

(** ** The extended encoding *)

Lemma shape_lookup c h w (t : ndarray) i :
  np.shape c h w t → i < c → ∃ q, t !! i = Some q ∧ plane_dims h w q.
Proof.
  intros [Hlen Hall]%shape_planes Hi.
  destruct (lookup_lt_is_Some_2 t i) as [q Hq]; [lia|].
  exists q. split; [done|]. by eapply Forall_lookup_1.
Qed.

Lemma shape_insert c h w (t : ndarray) i (q : plane) :
  np.shape c h w t → plane_dims h w q → np.shape c h w (<[i := q]> t).
Proof.
  rewrite !shape_planes. intros [Hlen Hall] Hq.
  split; [by rewrite length_insert|]. by apply Forall_insert.
Qed.

(** A guarded [tensor[i, :, :] = v] on an array that has plane [i]. *)
Lemma cond_fill_spec c h w (t : ndarray) (b : bool) i v :
  np.shape c h w t → i < c →
  ∃ t', (if b then np.fill t i v else Ok t) = Ok t' ∧
    np.shape c h w t' ∧ ∀ j, j ≠ i → t' !! j = t !! j.
Proof.
  intros Hsh Hi. destruct b; [|by exists t].
  destruct (shape_lookup c h w t i Hsh Hi) as (q & Hq & Hd).
  unfold np.fill. rewrite Hq. eexists. split; [done|]. split.
  - apply shape_insert; [done|]. by apply plane_dims_map.
  - intros j Hj. by rewrite list_lookup_insert_ne.
Qed.

Lemma fill_column_spec c h w (t : ndarray) i f v (q : plane) :
  np.shape c h w t → t !! i = Some q → f < w →
  np.fill_column t i f v =
    Ok (<[i := (λ row : list spec_float, <[f := v]> row) <$> q]> t) ∧
  np.shape c h w (<[i := (λ row : list spec_float, <[f := v]> row) <$> q]> t).
Proof.
  intros Hsh Hq Hf.
  assert (plane_dims h w q) as Hd.
  { apply shape_planes in Hsh as [_ Hall]. by eapply Forall_lookup_1. }
  unfold np.fill_column. rewrite Hq. split.
  - assert (forallb (λ row : list spec_float, bool_decide (f < length row)) q
            = true) as ->; [|done].
    apply Is_true_true, forallb_True, Forall_lookup. intros k row Hrow.
    apply bool_decide_pack.
    pose proof (f_equal (λ l : list nat, l !! k) Hd) as Hl. simpl in Hl.
    rewrite list_lookup_fmap, Hrow in Hl. simpl in Hl.
    apply lookup_lt_Some in Hrow.
    rewrite lookup_replicate_2 in Hl.
    + simplify_eq. lia.
    + by rewrite <-(length_replicate h w), <-Hd, length_fmap.
  - apply shape_insert; [done|]. unfold plane_dims in *. rewrite <-Hd.
    rewrite <-list_fmap_compose. apply list_fmap_ext. intros _ row _. simpl.
    apply length_insert.
Qed.

(** [board_to_tensor_extended] up to the clock plane: everything before
    the conversion of the halfmove clock succeeds, and channel 17 is final
    by then. *)
Lemma board_to_tensor_extended_steps p :
  ∃ t6, np.shape 19 8 8 t6 ∧ t6 !! 17 = Some (ep_plane (ep_square p)) ∧
    board_to_tensor_extended p =
      (clock ← float_of_int (halfmove_clock p);
       np.fill t6 18
         (np.to_float32 (py_min (truediv clock f64_100) f64_1))).
Proof.
  unfold board_to_tensor_extended.
  destruct (board_to_tensor_spec p) as (basic & -> & Hbasic & _).
  cbn [mbind result_bind]. unfold np.setprefix.
  rewrite decide_True by (by rewrite Hbasic).
  cbn [mbind result_bind].
  set (t0 := basic ++ drop 12 (np.zeros 19 8 8)).
  assert (length basic = 12) as Hlen by (by apply shape_planes in Hbasic as [? _]).
  assert (np.shape 19 8 8 t0) as Hsh0.
  { unfold np.shape, np.dims, t0. rewrite fmap_app. fold (np.dims basic).
    by rewrite Hbasic. }
  assert (t0 !! 17 = Some (np.full_plane 8 8 np.f0)) as H17.
  { unfold t0. rewrite lookup_app_r by lia. by rewrite Hlen. }
  destruct (cond_fill_spec 19 8 8 t0 (turn p) 12 np.f1 Hsh0)
    as (t1 & -> & Hsh1 & Hl1); [lia|].
  cbn [mbind result_bind].
  destruct (cond_fill_spec 19 8 8 t1
              (has_kingside_castling_rights p WHITE) 13 np.f1 Hsh1)
    as (t2 & -> & Hsh2 & Hl2); [lia|].
  cbn [mbind result_bind].
  destruct (cond_fill_spec 19 8 8 t2
              (has_queenside_castling_rights p WHITE) 14 np.f1 Hsh2)
    as (t3 & -> & Hsh3 & Hl3); [lia|].
  cbn [mbind result_bind].
  destruct (cond_fill_spec 19 8 8 t3
              (has_kingside_castling_rights p BLACK) 15 np.f1 Hsh3)
    as (t4 & -> & Hsh4 & Hl4); [lia|].
  cbn [mbind result_bind].
  destruct (cond_fill_spec 19 8 8 t4
              (has_queenside_castling_rights p BLACK) 16 np.f1 Hsh4)
    as (t5 & -> & Hsh5 & Hl5); [lia|].
  cbn [mbind result_bind].
  assert (t5 !! 17 = Some (np.full_plane 8 8 np.f0)) as H17'.
  { by rewrite Hl5, Hl4, Hl3, Hl2, Hl1 by lia. }
  destruct (ep_square p) as [sq|]; simpl ep_plane.
  - destruct (fill_column_spec 19 8 8 t5 17 (square_file sq) np.f1 _
                Hsh5 H17' (square_file_lt sq)) as [-> Hsh6].
    cbn [mbind result_bind]. eexists. split; [done|]. split; [|done].
    apply list_lookup_insert_eq. by eapply lookup_lt_Some.
  - cbn [mbind result_bind]. by exists t5.
Qed.

(** Close a goal [Forall (plane_dims h w) [...]] on planes spelled out. *)
Ltac solve_dims :=
  repeat (apply Forall_cons; split; [by eauto with dims|]); apply Forall_nil_2.

(** ** Involution and the extended channels *)

(** C2.  Flipping twice gives back the array: for an array of 12 or of 19
    channels (of any one rank and file count, 8 by 8 in particular, and of
    any of the dtypes) whose side-to-move channel 12 holds only 0.0 and
    1.0, [flip_board_tensor] returns on it and on its result, and the
    second result is the array itself, cell for cell on every channel.
    Binary cells are needed on channel 12 alone. *)
Theorem flip_involution dt h w (x : ndarray) :
  np.shape 12 h w x ∨
  (np.shape 19 h w x ∧
   ∀ p, x !! 12 = Some p → Forall (Forall (binary_in dt)) p) →
  ∃ y, flip_board_tensor dt x = Ok y ∧ flip_board_tensor dt y = Ok x.
Proof.
  intros [[Hlen Hall]%shape_planes | [[Hlen Hall]%shape_planes Hbin]].
  - destruct x as [|p0 [|p1 [|p2 [|p3 [|p4 [|p5 [|p6 [|p7 [|p8 [|p9 [|p10
      [|p11 [|? ?]]]]]]]]]]]]]; simpl in Hlen; try lia.
    exists [np.flip p6; np.flip p7; np.flip p8; np.flip p9; np.flip p10;
            np.flip p11; np.flip p0; np.flip p1; np.flip p2; np.flip p3;
            np.flip p4; np.flip p5].
    split; [exact (flip_12 dt h w p0 p1 p2 p3 p4 p5 p6 p7 p8 p9 p10 p11 Hall)|].
    repeat (apply Forall_cons in Hall as [? Hall]).
    rewrite (flip_12 dt h w (np.flip p6) (np.flip p7) (np.flip p8) (np.flip p9)
               (np.flip p10) (np.flip p11) (np.flip p0) (np.flip p1)
               (np.flip p2) (np.flip p3) (np.flip p4) (np.flip p5)
               ltac:(solve_dims)).
    by rewrite !flip_flip.
  - destruct x as [|p0 [|p1 [|p2 [|p3 [|p4 [|p5 [|p6 [|p7 [|p8 [|p9 [|p10
      [|p11 [|p12 [|p13 [|p14 [|p15 [|p16 [|p17 [|p18 [|? ?]]]]]]]]]]]]]]]]]]]];
      simpl in Hlen; try lia.
    specialize (Hbin p12 eq_refl).
    repeat (apply Forall_cons in Hall as [? Hall]).
    exists [np.flip p6; np.flip p7; np.flip p8; np.flip p9; np.flip p10;
            np.flip p11; np.flip p0; np.flip p1; np.flip p2; np.flip p3;
            np.flip p4; np.flip p5;
            np.rsub dt (np.one dt) p12; p15; p16; p13; p14; np.flip p17; p18].
    split.
    + exact (flip_ge17 dt h w p0 p1 p2 p3 p4 p5 p6 p7 p8 p9 p10 p11
               ltac:(solve_dims) p12 p13 p14 p15 p16 ltac:(solve_dims)
               [p17; p18] ltac:(solve_dims)).
    + etrans.
      { exact (flip_ge17 dt h w (np.flip p6) (np.flip p7) (np.flip p8)
                 (np.flip p9) (np.flip p10) (np.flip p11) (np.flip p0)
                 (np.flip p1) (np.flip p2) (np.flip p3) (np.flip p4)
                 (np.flip p5) ltac:(solve_dims)
                 (np.rsub dt (np.one dt) p12) p15 p16 p13 p14
                 ltac:(solve_dims)
                 [np.flip p17; p18] ltac:(solve_dims)). }
      simpl. by rewrite !flip_flip, rsub_rsub.
Qed.

(** C4.  On a 19-channel array of dtype [dt] [flip_board_tensor] returns
    [y] with: channel 12 equal to [1.0 - x[12]] cell by cell, the
    difference taken in the format of [dt], so that a cell 0.0 becomes 1.0
    and a cell 1.0 becomes 0.0; channel 13 the input's channel 15 and
    conversely, channel 14 the input's channel 16 and conversely, copied as
    they are (no rank mirror); channel 17 the input's channel 17 with rank
    [r] read from rank [h - 1 - r]; channel 18 the input's channel 18. *)
Theorem flip_extended_channels dt h w (x : ndarray) :
  np.shape 19 h w x →
  ∃ y, flip_board_tensor dt x = Ok y ∧
    (∀ r f v, np.getitem x 12 r f = Ok v →
       np.getitem y 12 r f = Ok (np.sub dt (np.one dt) v) ∧
       (v = np.f0 → np.getitem y 12 r f = Ok (np.one dt)) ∧
       (v = np.one dt → np.getitem y 12 r f = Ok np.f0)) ∧
    y !! 13 = x !! 15 ∧ y !! 15 = x !! 13 ∧
    y !! 14 = x !! 16 ∧ y !! 16 = x !! 14 ∧
    (∀ r f, r < h → np.getitem y 17 r f = np.getitem x 17 (h - 1 - r) f) ∧
    y !! 18 = x !! 18.
Proof.
  intros [Hlen Hall]%shape_planes.
  destruct x as [|p0 [|p1 [|p2 [|p3 [|p4 [|p5 [|p6 [|p7 [|p8 [|p9 [|p10
    [|p11 [|p12 [|p13 [|p14 [|p15 [|p16 [|p17 [|p18 [|? ?]]]]]]]]]]]]]]]]]]]];
    simpl in Hlen; try lia.
  repeat (apply Forall_cons in Hall as [? Hall]).
  exists [np.flip p6; np.flip p7; np.flip p8; np.flip p9; np.flip p10;
          np.flip p11; np.flip p0; np.flip p1; np.flip p2; np.flip p3;
          np.flip p4; np.flip p5;
          np.rsub dt (np.one dt) p12; p15; p16; p13; p14; np.flip p17; p18].
  split.
  { exact (flip_ge17 dt h w p0 p1 p2 p3 p4 p5 p6 p7 p8 p9 p10 p11
             ltac:(solve_dims) p12 p13 p14 p15 p16 ltac:(solve_dims)
             [p17; p18] ltac:(solve_dims)). }
  split; [|split; [done|split; [done|split; [done|split; [done|split; [|done]]]]]].
  - intros r f v. unfold np.getitem. simpl.
    unfold np.rsub, np.map_plane. rewrite !list_lookup_fmap.
    destruct (p12 !! r) as [row|]; simpl; [|done].
    rewrite list_lookup_fmap. destruct (row !! f); simpl; [|done].
    intros [= ->]. split; [done|].
    split; intros ->; by destruct dt.
  - intros r f Hr. unfold np.getitem. simpl.
    assert (length p17 = h) as Hh.
    { match goal with Hp : plane_dims h w p17 |- _ =>
        rewrite <-(length_fmap length), Hp end. apply length_replicate. }
    unfold np.flip. rewrite reverse_lookup by lia.
    by replace (length p17 - S r) with (h - 1 - r) by lia.
Qed.

(** C9.  On an array of 13 to 16 channels [flip_board_tensor] returns
    nothing: the branch for more than 12 channels is taken and reading
    channel 15 (or 16) goes past the channel axis, which raises
    IndexError. *)
Theorem flip_partial_extended_raises dt c h w (x : ndarray) :
  np.shape c h w x → 13 ≤ c ≤ 16 →
  flip_board_tensor dt x = Raise IndexError.
Proof.
  intros [Hlen Hall]%shape_planes Hc.
  do 12 uncons x Hlen.
  apply (Forall_app _ [_;_;_;_;_;_;_;_;_;_;_;_]) in Hall as [H12 Hrest].
  apply (flip_13_16 dt h w); [done..|]. simpl in Hlen. lia.
Qed.

(** ** Malformed shapes *)

(** C6, as stated, fails: an array of 20 channels, and an array of 12
    channels of 9 by 9 cells, are accepted by both [tensor_to_board] and
    [flip_board_tensor].  Nothing is raised; the extra channel, ranks and
    files are left unread by the decoder, and the flipper leaves channel 19
    at zero. *)
Lemma malformed_shapes_accepted :
  np.shape 20 8 8 (np.zeros 20 8 8) ∧
  tensor_to_board (np.zeros 20 8 8) = Ok chess.empty ∧
  (∃ y, flip_board_tensor np.float32 (np.zeros 20 8 8) = Ok y ∧
        np.shape 20 8 8 y) ∧
  np.shape 12 9 9 (np.zeros 12 9 9) ∧
  tensor_to_board (np.zeros 12 9 9) = Ok chess.empty ∧
  flip_board_tensor np.float32 (np.zeros 12 9 9) = Ok (np.zeros 12 9 9).
Proof.
  split; [apply shape_zeros|]. split; [by vm_compute|]. split.
  - eexists. split; [by vm_compute|]. by vm_compute.
  - split; [apply shape_zeros|]. split; by vm_compute.
Qed.

(** C6, amended.  Neither function validates the shape, and no
    InvalidShape condition exists.  [tensor_to_board] returns a position
    on every array of at least 12 channels of at least 8 by 8 cells and
    raises IndexError on every other array; [flip_board_tensor], whatever
    the rank and file counts, returns an array of the same shape when
    there are 12 channels or at least 17, and raises IndexError when there
    are fewer than 12 channels or 13 to 16. *)
Theorem shape_errors_are_index_errors dt c h w (t : ndarray) :
  np.shape c h w t →
  (12 ≤ c ∧ 8 ≤ h ∧ 8 ≤ w → ∃ b, tensor_to_board t = Ok b) ∧
  (c < 12 ∨ h < 8 ∨ w < 8 → tensor_to_board t = Raise IndexError) ∧
  (c = 12 ∨ 17 ≤ c →
     ∃ y, flip_board_tensor dt t = Ok y ∧ np.shape c h w y) ∧
  (c < 12 ∨ 13 ≤ c ≤ 16 → flip_board_tensor dt t = Raise IndexError).
Proof.
  intros Hsh. split; [|split; [|split]].
  - intros (Hc & Hh & Hw).
    destruct (tensor_to_board_spec t) as (b & Hb & _); [|by exists b].
    by eapply shape_readable.
  - intros Hbad.
    destruct (decide (c < 12)) as [Hc|Hc].
    { apply (tensor_to_board_raise t c 0 0); [lia..|].
      apply shape_planes in Hsh as [Hlen _].
      unfold np.getitem. by rewrite lookup_ge_None_2 by lia. }
    destruct (shape_lookup c h w t 0 Hsh) as (q & Hq & Hd); [lia|].
    assert (length q = h) as Hqlen.
    { by rewrite <-(length_fmap length), Hd, length_replicate. }
    destruct (decide (h < 8)) as [Hh|Hh].
    { apply (tensor_to_board_raise t 0 h 0); [lia..|].
      unfold np.getitem. rewrite Hq. by rewrite lookup_ge_None_2 by lia. }
    apply (tensor_to_board_raise t 0 0 w); [lia..|].
    unfold np.getitem. rewrite Hq.
    destruct (q !! 0) as [row|] eqn:Hrow; [|done].
    pose proof (f_equal (λ l : list nat, l !! 0) Hd) as Hl. simpl in Hl.
    rewrite list_lookup_fmap, Hrow, lookup_replicate_2 in Hl by lia.
    simpl in Hl. rewrite lookup_ge_None_2; [done|]. simplify_eq. lia.
  - intros [-> | Hc].
    + by apply flip_12_returns.
    + by apply flip_ge17_returns.
  - intros [Hc | Hc].
    + by eapply flip_lt_12.
    + apply shape_planes in Hsh as [Hlen Hall].
      do 12 uncons t Hlen.
      apply (Forall_app _ [_;_;_;_;_;_;_;_;_;_;_;_]) in Hall as [H12 Hrest].
      apply (flip_13_16 dt h w); [done..|]. simpl in Hlen. lia.
Qed.

(** ** The en-passant channel *)

Lemma converts_from_spec fuel n m :
  converts_from fuel n = true →
  (n ≤ m)%N → (m < n + N.of_nat fuel)%N →
  ∃ x, float_of_int m = Ok x.
Proof.
  revert n. induction fuel as [|fuel IH]; intros n Hrun Hle Hlt; [lia|].
  simpl in Hrun. destruct (float_of_int n) as [x|e] eqn:Hn; [|done].
  destruct (decide (m = n)) as [->|Hne]; [by exists x|].
  apply (IH (N.succ n)); [done|lia|lia].
Qed.

(** Every halfmove clock below 65536 converts to a float. *)
Lemma float_of_int_small n :
  (n < 65536)%N → ∃ x, float_of_int n = Ok x.
Proof.
  intros Hn. apply (converts_from_spec (Nat.pow 2 16) 0); [by vm_compute|lia|].
  replace (N.of_nat (Nat.pow 2 16)) with 65536%N by (by vm_compute). lia.
Qed.

(** C7.  Channel 17 of the extended encoding: when the position has an
    en-passant square, every rank of that square's file holds 1.0 and every
    cell of every other file holds 0.0, so that the file's column sums to
    8.0 and every other column to 0.0; without an en-passant square every
    cell is 0.0.  This holds of every array [board_to_tensor_extended]
    returns, and it returns one, of shape (19, 8, 8), whenever the halfmove
    clock converts to a float (the only step that can raise), as every
    clock below 65536 does. *)
Theorem encode_extended_en_passant (p : Board) :
  (∀ t, board_to_tensor_extended p = Ok t →
     ∀ f, f < 8 →
       (∀ r, r < 8 →
          np.getitem t 17 r f =
            Ok (if decide (square_file <$> ep_square p = Some f)
                then np.f1 else np.f0)) ∧
       column_sum t 17 f =
         Ok (if decide (square_file <$> ep_square p = Some f)
             then f32_8 else np.f0)) ∧
  (∀ clock, float_of_int (halfmove_clock p) = Ok clock →
     ∃ t, board_to_tensor_extended p = Ok t ∧ np.shape 19 8 8 t) ∧
  ((halfmove_clock p < 65536)%N →
     ∃ t, board_to_tensor_extended p = Ok t ∧ np.shape 19 8 8 t).
Proof.
  destruct (board_to_tensor_extended_steps p) as (t6 & Hsh & H17 & ->).
  assert (∀ clock, float_of_int (halfmove_clock p) = Ok clock →
    ∃ t, (clock ← float_of_int (halfmove_clock p);
          np.fill t6 18
            (np.to_float32 (py_min (truediv clock f64_100) f64_1))) = Ok t ∧
         np.shape 19 8 8 t) as Hreturns.
  { intros clock ->. cbn [mbind result_bind].
    destruct (cond_fill_spec 19 8 8 t6 true 18
                (np.to_float32 (py_min (truediv clock f64_100) f64_1)) Hsh)
      as (t' & Hfill & Hsh' & _); [lia|].
    by exists t'. }
  split; [|split; [done|]].
  2:{ intros [clock Hclock]%float_of_int_small. by apply (Hreturns clock). }
  - intros t Hrun.
    destruct (float_of_int (halfmove_clock p)) as [clock|e]; [|done].
    cbn [mbind result_bind] in Hrun.
    destruct (cond_fill_spec 19 8 8 t6 true 18
                (np.to_float32 (py_min (truediv clock f64_100) f64_1)) Hsh)
      as (t' & Hfill & _ & Hl); [lia|].
    rewrite Hrun in Hfill. injection Hfill as <-.
    assert (t !! 17 = Some (ep_plane (ep_square p))) as Ht
      by (by rewrite Hl, H17 by lia).
    intros f Hf.
    assert (∀ r, r < 8 →
      np.getitem t 17 r f =
        Ok (if decide (square_file <$> ep_square p = Some f)
            then np.f1 else np.f0)) as Hcells.
    { intros r Hr. unfold np.getitem. rewrite Ht.
      pose proof (lookup_replicate_2 8 np.f0 f Hf) as Hcell.
      destruct (ep_square p) as [sq|]; unfold ep_plane, np.full_plane.
      - rewrite list_lookup_fmap, lookup_replicate_2 by done.
        cbn [fmap option_fmap option_map].
        pose proof (square_file_lt sq) as Hsq.
        destruct (decide (square_file sq = f)) as [->|Hne].
        + rewrite list_lookup_insert_eq by (by rewrite length_replicate).
          by rewrite decide_True.
        + rewrite list_lookup_insert_ne, Hcell by done.
          by rewrite decide_False by congruence.
      - rewrite lookup_replicate_2, Hcell by done.
        by rewrite decide_False. }
    split; [done|].
    unfold column_sum, range. simpl seq. cbn [for_each].
    rewrite !Hcells by lia. cbn [mbind result_bind].
    by case_decide.
Qed.

(** ** The theorems at the positions of the test suite *)

Example test_starting_position_pawns :
  ∃ t, board_to_tensor starting_board = Ok t ∧
    t !! 0 ≫= (.!! 1) = Some (replicate 8 np.f1) ∧
    t !! 6 ≫= (.!! 6) = Some (replicate 8 np.f1).
Proof. eexists. split; [by vm_compute|]. by vm_compute. Qed.

Example test_single_piece :
  ∃ t, board_to_tensor
         (set_piece_at chess.empty (square 4 3) (mkPiece QUEEN WHITE)) = Ok t ∧
    np.getitem t 4 3 4 = Ok np.f1.
Proof. eexists. split; [by vm_compute|]. by vm_compute. Qed.

Example test_en_passant :
  column_sum after_e4_extended 17 4 = Ok f32_8 ∧
  column_sum after_e4_extended 17 3 = Ok np.f0.
Proof. split; by vm_compute. Qed.

Example test_round_trip :
  ∃ t b, board_to_tensor starting_board = Ok t ∧ tensor_to_board t = Ok b ∧
    pieces b = starting_pieces.
Proof. do 2 eexists. split; [by vm_compute|]. split; by vm_compute. Qed.

Example test_flip_swaps_colors :
  ∃ t y, board_to_tensor starting_board = Ok t ∧
    flip_board_tensor np.float32 t = Ok y ∧
    y !! 6 ≫= (.!! 6) = Some (replicate 8 np.f1).
Proof. do 2 eexists. split; [by vm_compute|]. split; by vm_compute. Qed.

(** [1.0 - tensor[12]] is computed in the dtype of the array: 0.9 as a
    float64 on a float64 array, as a float32 on a float32 array. *)
Example test_flip_keeps_dtype :
  (∃ y, flip_board_tensor np.float64 tenths64 = Ok y ∧
        np.getitem y 12 0 0 = Ok (S754_finite false 8106479329266893 (-53))) ∧
  (∃ y, flip_board_tensor np.float32 tenths32 = Ok y ∧
        np.getitem y 12 0 0 = Ok (S754_finite false 15099494 (-24))).
Proof. split; eexists; (split; [by vm_compute|]); by vm_compute. Qed.

(** The threshold test compares values, whatever the dtype: in a float64
    array of ones every cell is above 0.5, the last channel wins and the
    corner squares hold Black kings; a float64 array of 0.1 decodes to the
    empty board. *)
Example test_decode_float64 :
  (∃ b, tensor_to_board (replicate 12 (np.full_plane 8 8 (np.one np.float64)))
          = Ok b ∧
     piece_at b (square 0 0) = Some (mkPiece KING BLACK) ∧
     piece_at b (square 7 7) = Some (mkPiece KING BLACK)) ∧
  tensor_to_board (replicate 12 (np.full_plane 8 8 f64_tenth)) = Ok chess.empty.
Proof.
  split; [|by vm_compute].
  eexists. split; [by vm_compute|]. split; by vm_compute.
Qed.

Lemma flip_involution_witness :
  ∃ y, flip_board_tensor np.float32 after_e4_extended = Ok y ∧
       flip_board_tensor np.float32 y = Ok after_e4_extended.
Proof.
  apply (flip_involution np.float32 8 8). right. split; [by vm_compute|].
  intros p Hp. vm_compute in Hp. injection Hp as <-.
  repeat (apply Forall_cons_2;
          [repeat (apply Forall_cons_2; [by left|]); apply Forall_nil_2|]).
  apply Forall_nil_2.
Defined.

Lemma flip_extended_channels_witness :
  ∃ y, flip_board_tensor np.float64 tenths64 = Ok y ∧
    (∀ r f v, np.getitem tenths64 12 r f = Ok v →
       np.getitem y 12 r f = Ok (np.sub np.float64 (np.one np.float64) v) ∧
       (v = np.f0 → np.getitem y 12 r f = Ok (np.one np.float64)) ∧
       (v = np.one np.float64 → np.getitem y 12 r f = Ok np.f0)) ∧
    y !! 13 = tenths64 !! 15 ∧ y !! 15 = tenths64 !! 13 ∧
    y !! 14 = tenths64 !! 16 ∧ y !! 16 = tenths64 !! 14 ∧
    (∀ r f, r < 1 →
       np.getitem y 17 r f = np.getitem tenths64 17 (1 - 1 - r) f) ∧
    y !! 18 = tenths64 !! 18.
Proof. apply (flip_extended_channels np.float64 1 2). by vm_compute. Defined.

Lemma decode_multi_hot_last_wins_witness :
  ∃ b m pt col, tensor_to_board multi_hot = Ok b ∧
    m < 12 ∧ active multi_hot m 0 0 = true ∧
    (∀ c, c < 12 → active multi_hot c 0 0 = true → c ≤ m) ∧
    channel_to_piece !! m = Some (pt, col) ∧
    piece_at b (square 0 0) = Some (mkPiece pt col).
Proof.
  apply (decode_multi_hot_last_wins multi_hot 0 0 0 11);
    [by vm_compute | lia | lia | lia | lia | lia | by vm_compute | by vm_compute].
Defined.

Lemma shape_errors_are_index_errors_witness :
  (12 ≤ 20 ∧ 8 ≤ 8 ∧ 8 ≤ 8 → ∃ b, tensor_to_board (np.zeros 20 8 8) = Ok b) ∧
  (20 < 12 ∨ 8 < 8 ∨ 8 < 8 →
     tensor_to_board (np.zeros 20 8 8) = Raise IndexError) ∧
  (20 = 12 ∨ 17 ≤ 20 →
     ∃ y, flip_board_tensor np.float32 (np.zeros 20 8 8) = Ok y ∧
          np.shape 20 8 8 y) ∧
  (20 < 12 ∨ 13 ≤ 20 ≤ 16 →
     flip_board_tensor np.float32 (np.zeros 20 8 8) = Raise IndexError).
Proof.
  apply (shape_errors_are_index_errors np.float32 20 8 8). by vm_compute.
Defined.

Lemma decode_ignores_extended_witness :
  ∃ b, tensor_to_board after_e4_extended = Ok b ∧
       tensor_to_board after_e4_blank_state = Ok b.
Proof.
  apply decode_ignores_extended; [by vm_compute | by vm_compute | by vm_compute].
Defined.

Lemma flip_partial_extended_raises_witness :
  flip_board_tensor np.float32 (np.zeros 13 8 8) = Raise IndexError.
Proof.
  apply (flip_partial_extended_raises np.float32 13 8 8);
    [by vm_compute | lia].
Defined.

Lemma encode_extended_en_passant_witness :
  ((∀ r, r < 8 →
      np.getitem after_e4_extended 17 r 4 =
        Ok (if decide (square_file <$> ep_square after_e4 = Some 4)
            then np.f1 else np.f0)) ∧
   column_sum after_e4_extended 17 4 =
     Ok (if decide (square_file <$> ep_square after_e4 = Some 4)
         then f32_8 else np.f0)) ∧
  ∃ t, board_to_tensor_extended after_e4 = Ok t ∧ np.shape 19 8 8 t.
Proof.
  split.
  - apply (proj1 (encode_extended_en_passant after_e4) after_e4_extended);
      [by vm_compute | lia].
  - apply (proj2 (proj2 (encode_extended_en_passant after_e4))).
    by vm_compute.
Defined.

Lemma decode_default_state_witness :
  turn chess.empty = WHITE ∧
  has_kingside_castling_rights chess.empty WHITE = false ∧
  has_queenside_castling_rights chess.empty WHITE = false ∧
  has_kingside_castling_rights chess.empty BLACK = false ∧
  has_queenside_castling_rights chess.empty BLACK = false ∧
  ep_square chess.empty = None ∧
  halfmove_clock chess.empty = 0%N.
Proof.
  apply (proj1 (decode_default_state (np.zeros 12 8 8)) chess.empty).
  by vm_compute.
Defined.


(** * Further properties *)

(** ** Arrays are determined by their cells *)

Lemma shape_length c h w (t : ndarray) : np.shape c h w t → length t = c.
Proof. by intros [? _]%shape_planes. Qed.

Lemma plane_dims_length h w (p : plane) : plane_dims h w p → length p = h.
Proof.
  unfold plane_dims. intros Hp.
  by rewrite <-(length_fmap length), Hp, length_replicate.
Qed.

Lemma plane_dims_row h w (p : plane) r row :
  plane_dims h w p → p !! r = Some row → length row = w.
Proof.
  unfold plane_dims. intros Hp Hrow.
  pose proof (f_equal (λ l : list nat, l !! r) Hp) as Hl. simpl in Hl.
  rewrite list_lookup_fmap, Hrow in Hl. simpl in Hl.
  apply lookup_lt_Some in Hrow. apply plane_dims_length in Hp.
  rewrite lookup_replicate_2 in Hl by lia. congruence.
Qed.

Lemma plane_ext h w (p q : plane) :
  plane_dims h w p → plane_dims h w q →
  (∀ r f, r < h → f < w → p !! r ≫= (.!! f) = q !! r ≫= (.!! f)) →
  p = q.
Proof.
  intros Hp Hq Hcells. apply list_eq. intros r.
  pose proof (plane_dims_length _ _ _ Hp) as Hlp.
  pose proof (plane_dims_length _ _ _ Hq) as Hlq.
  destruct (decide (r < h)) as [Hr|Hr].
  2:{ by rewrite !lookup_ge_None_2 by lia. }
  destruct (lookup_lt_is_Some_2 p r) as [row1 Hrow1]; [lia|].
  destruct (lookup_lt_is_Some_2 q r) as [row2 Hrow2]; [lia|].
  rewrite Hrow1, Hrow2. f_equal. apply list_eq. intros f.
  pose proof (plane_dims_row _ _ _ _ _ Hp Hrow1) as Hw1.
  pose proof (plane_dims_row _ _ _ _ _ Hq Hrow2) as Hw2.
  destruct (decide (f < w)) as [Hf|Hf].
  - specialize (Hcells r f Hr Hf). by rewrite Hrow1, Hrow2 in Hcells.
  - by rewrite !lookup_ge_None_2 by lia.
Qed.

Lemma getitem_plane (t : ndarray) c r f (p : plane) :
  t !! c = Some p →
  np.getitem t c r f =
    match p !! r ≫= (.!! f) with Some v => Ok v | None => Raise IndexError end.
Proof.
  intros Hp. unfold np.getitem. rewrite Hp.
  destruct (p !! r) as [row|]; simpl; [|done]. by destruct (row !! f).
Qed.

Lemma ndarray_ext c h w (t1 t2 : ndarray) :
  np.shape c h w t1 → np.shape c h w t2 →
  (∀ i r f, i < c → r < h → f < w →
     np.getitem t1 i r f = np.getitem t2 i r f) →
  t1 = t2.
Proof.
  intros Hs1 Hs2 Hcells. apply list_eq. intros i.
  pose proof (shape_length _ _ _ _ Hs1) as Hl1.
  pose proof (shape_length _ _ _ _ Hs2) as Hl2.
  destruct (decide (i < c)) as [Hi|Hi].
  2:{ by rewrite !lookup_ge_None_2 by lia. }
  destruct (shape_lookup c h w t1 i Hs1 Hi) as (p & Hp & Hdp).
  destruct (shape_lookup c h w t2 i Hs2 Hi) as (q & Hq & Hdq).
  rewrite Hp, Hq. f_equal. apply (plane_ext h w); [done..|].
  intros r f Hr Hf. specialize (Hcells i r f Hi Hr Hf).
  rewrite (getitem_plane t1 i r f p Hp), (getitem_plane t2 i r f q Hq) in Hcells.
  pose proof (plane_dims_length _ _ _ Hdp) as Hlp.
  pose proof (plane_dims_length _ _ _ Hdq) as Hlq.
  destruct (lookup_lt_is_Some_2 p r) as [row1 Hrow1]; [lia|].
  destruct (lookup_lt_is_Some_2 q r) as [row2 Hrow2]; [lia|].
  rewrite Hrow1, Hrow2 in *. simpl in *.
  pose proof (plane_dims_row _ _ _ _ _ Hdp Hrow1) as Hw1.
  pose proof (plane_dims_row _ _ _ _ _ Hdq Hrow2) as Hw2.
  destruct (lookup_lt_is_Some_2 row1 f) as [v1 Hv1]; [lia|].
  destruct (lookup_lt_is_Some_2 row2 f) as [v2 Hv2]; [lia|].
  rewrite Hv1, Hv2 in *. congruence.
Qed.

(** ** More on the basic encoding and on decoding *)

Lemma channel_piece_inv c piece :
  channel_piece c = Some piece → piece_channel piece = c.
Proof.
  unfold channel_piece. intros Hc.
  do 12 (destruct c as [|c]; [by simplify_eq/=|]). done.
Qed.

Lemma winner_some t k r f piece :
  winner t k r f = Some piece →
  ∃ m, m < k ∧ active t m r f = true ∧ channel_piece m = Some piece.
Proof.
  induction k as [|k IH]; [done|]. simpl.
  destruct (active t k r f) eqn:Hk.
  - intros Hcp. exists k. split; [lia|done].
  - intros (m & Hm & ? & ?)%IH. exists m. split; [lia|done].
Qed.

(** Decoding an array whose cells are those of the encoding of [p]. *)
Lemma decode_of_cells p (t : ndarray) :
  (∀ c r f, c < 12 → r < 8 → f < 8 →
     np.getitem t c r f = Ok (cell_of p c r f)) →
  ∃ b, tensor_to_board t = Ok b ∧
    game_state b = game_state chess.empty ∧
    ∀ sq, sq < 64 → piece_at b sq = piece_at p sq.
Proof.
  intros Hcells.
  assert (readable t) as Hread.
  { intros c r f ???. eexists. by apply Hcells. }
  destruct (tensor_to_board_spec t Hread) as (b & Hdec & Hgs & Hp).
  exists b. split; [done|]. split; [done|].
  intros sq Hsq. unfold piece_at at 1. rewrite Hp, decide_True by done.
  pose proof (square_rank_lt sq Hsq) as Hr.
  pose proof (square_file_lt sq) as Hf.
  assert (∀ c, c < 12 → active t c (square_rank sq) (square_file sq) =
            bool_decide (piece_channel <$> piece_at p sq = Some c)) as Hact.
  { intros c Hc. rewrite (active_encoded p) by done.
    by rewrite square_of_file_rank. }
  destruct (piece_at p sq) as [piece|] eqn:Hpc.
  - rewrite <-channel_piece_channel.
    pose proof (piece_channel_lt piece).
    apply winner_highest; [done| |].
    + rewrite Hact by done. by apply bool_decide_eq_true.
    + intros c' Hc'. rewrite Hact by done.
      intros [=->]%bool_decide_eq_true. done.
  - apply winner_none. intros c Hc. rewrite Hact by done.
    by apply bool_decide_eq_false.
Qed.

(** X1.  The channel table of [board_to_tensor]: at the cell of an occupied
    square exactly the channel [PIECE_TO_CHANNEL[type]], plus 6 for a Black
    piece, is 1.0 and the other eleven are 0.0; at the cell of an empty
    square all twelve are 0.0. *)
Theorem encode_channel_assignment (p : Board) :
  ∃ t, board_to_tensor p = Ok t ∧
    ∀ r f c, r < 8 → f < 8 → c < 12 →
      np.getitem t c r f =
        Ok match piece_at p (square f r) with
           | Some piece =>
               if decide (c = PIECE_TO_CHANNEL (piece_type piece)
                              + (if color piece then 0 else 6))
               then np.f1 else np.f0
           | None => np.f0
           end.
Proof.
  destruct (board_to_tensor_spec p) as (t & Henc & _ & Hcells).
  exists t. split; [done|]. intros r f c Hr Hf Hc.
  rewrite Hcells by done. unfold cell_of. f_equal.
  destruct (piece_at p (square f r)) as [[pt col]|]; simpl; [|done].
  apply decide_ext. unfold piece_channel. simpl.
  destruct col; simpl; split; intros; simplify_eq; f_equal; lia.
Qed.

(** X2.  [board_to_tensor] reads the piece placement of the 64 squares and
    nothing else: positions that agree on it have the same encoding,
    whatever their side to move, castling rights, en-passant square and
    clock. *)
Theorem encode_reads_placement_only (p q : Board) :
  (∀ sq, sq < 64 → piece_at p sq = piece_at q sq) →
  board_to_tensor p = board_to_tensor q.
Proof.
  intros Hsame. unfold board_to_tensor.
  apply for_each_ext. intros sq t Hsq%range_elem. by rewrite Hsame.
Qed.

(** X3.  What [tensor_to_board] puts on a square, for any array of at
    least 12 channels of at least 8 by 8 cells: nothing exactly when no
    channel exceeds 0.5 at the cell (a NaN, or 0.5 itself, does not), else
    the piece of the highest channel that does; and no piece anywhere but
    on the 64 squares. *)
Theorem decode_threshold c h w (t : ndarray) :
  np.shape c h w t → 12 ≤ c → 8 ≤ h → 8 ≤ w →
  ∃ b, tensor_to_board t = Ok b ∧
    (∀ r f, r < 8 → f < 8 →
       (piece_at b (square f r) = None ↔
        ∀ ch, ch < 12 → active t ch r f = false) ∧
       (∀ m, m < 12 → active t m r f = true →
          (∀ ch, ch < 12 → active t ch r f = true → ch ≤ m) →
          piece_at b (square f r) = channel_piece m)) ∧
    (∀ sq, 64 ≤ sq → piece_at b sq = None).
Proof.
  intros Hsh Hc Hh Hw.
  assert (readable t) as Hread by (by eapply shape_readable).
  destruct (tensor_to_board_spec t Hread) as (b & Hdec & _ & Hp).
  exists b. split; [done|]. split.
  - intros r f Hr Hf. unfold piece_at.
    rewrite Hp, decide_True by (by apply square_lt).
    rewrite square_rank_square, square_file_square by done. split.
    + split.
      * intros Hnone ch Hch.
        destruct (active t ch r f) eqn:Hact; [|done].
        destruct (highest_active t 12 r f ch Hch Hact) as (m & Hm & Hma & Hmax).
        rewrite (winner_highest t 12 r f m Hm Hma Hmax) in Hnone.
        destruct (dict_get_channel m Hm) as (pt & col & _ & Hcp). congruence.
      * intros Hnone. by apply winner_none.
    + intros m Hm Hma Hmax. by apply winner_highest.
  - intros sq Hsq. unfold piece_at. rewrite Hp. by rewrite decide_False by lia.
Qed.

(** X4.  An array in which no cell of channels 0 to 11 exceeds 0.5 decodes
    to the empty board, [chess.Board(fen=None)] itself. *)
Theorem decode_nothing_active c h w (t : ndarray) :
  np.shape c h w t → 12 ≤ c → 8 ≤ h → 8 ≤ w →
  (∀ ch r f, ch < 12 → r < 8 → f < 8 → active t ch r f = false) →
  tensor_to_board t = Ok chess.empty.
Proof.
  intros Hsh Hc Hh Hw Hnone.
  assert (readable t) as Hread by (by eapply shape_readable).
  destruct (tensor_to_board_spec t Hread) as (b & -> & Hgs & Hp).
  f_equal. destruct b as [pcs tn wk wq bk bq ep hc].
  unfold game_state in Hgs. simpl in Hgs. cbn [pieces] in Hp. simplify_eq.
  unfold chess.empty. f_equal. apply map_eq. intros sq.
  rewrite Hp, lookup_empty. case_decide as Hsq; [|done].
  apply winner_none. intros ch Hch.
  apply Hnone; [done| by apply square_rank_lt | apply square_file_lt].
Qed.

(** X5.  Encoding is a left inverse of decoding on valid encodings: an
    array of shape (12, 8, 8) whose cells are 0.0 or 1.0 with at most one
    1.0 per cell is decoded to a position whose encoding is that array. *)
Theorem encode_decode_one_hot (t : ndarray) :
  np.shape 12 8 8 t → one_hot t →
  ∃ b, tensor_to_board t = Ok b ∧ board_to_tensor b = Ok t.
Proof.
  intros Hsh [Hbin Huniq].
  assert (readable t) as Hread by (by eapply shape_readable).
  destruct (tensor_to_board_spec t Hread) as (b & Hdec & _ & Hp).
  exists b. split; [done|].
  destruct (board_to_tensor_spec b) as (t' & -> & Hsh' & Hcells').
  f_equal. apply (ndarray_ext 12 8 8); [done..|].
  intros c r f Hc Hr Hf. rewrite Hcells' by done. unfold cell_of, piece_at.
  rewrite Hp, (decide_True (P := square f r < 64)) by (by apply square_lt).
  rewrite square_rank_square, square_file_square by done.
  assert (∀ ch, ch < 12 →
    active t ch r f = true ↔ np.getitem t ch r f = Ok np.f1) as Hact.
  { intros ch Hch. unfold active.
    destruct (Hbin ch r f Hch Hr Hf) as [-> | ->]; by split. }
  destruct (Hbin c r f Hc Hr Hf) as [Hv | Hv]; rewrite Hv.
  - rewrite decide_False; [done|].
    destruct (winner t 12 r f) as [piece|] eqn:Hwin; [|done].
    simpl. intros [= Hpc].
    apply winner_some in Hwin as (m & Hm & Hma & Hwin).
    apply channel_piece_inv in Hwin. subst m.
    rewrite Hpc in Hma. apply Hact in Hma; [|done].
    rewrite Hv in Hma. by cbv in Hma.
  - assert (active t c r f = true) as Hac by (by apply Hact).
    rewrite (winner_highest t 12 r f c Hc Hac).
    + destruct (dict_get_channel c Hc) as (pt & col & _ & Hcp).
      rewrite Hcp. simpl. rewrite (channel_piece_inv c _ Hcp).
      by rewrite decide_True.
    + intros ch Hch Ha. apply Hact in Ha; [|done].
      by rewrite (Huniq ch c r f).
Qed.

(** ** More on the extended encoding *)

#[local] Arguments np.full_plane : simpl never.

(** A guarded [tensor[i, :, :] = 1.0] on a plane that is still zero. *)
Lemma flag_fill (t : ndarray) i (b : bool) :
  t !! i = Some (np.full_plane 8 8 np.f0) →
  (if b then np.fill t i np.f1 else Ok t) = Ok (<[i := flag_plane b]> t).
Proof.
  intros Hi. destruct b.
  - unfold np.fill. by rewrite Hi.
  - by rewrite list_insert_id.
Qed.

Lemma ep_fill (t : ndarray) (ep : option Square) :
  t !! 17 = Some (np.full_plane 8 8 np.f0) →
  match ep with
  | Some sq => np.fill_column t 17 (square_file sq) np.f1
  | None => Ok t
  end = Ok (<[17 := ep_plane ep]> t).
Proof.
  intros Hi. destruct ep as [sq|]; simpl.
  - unfold np.fill_column. rewrite Hi.
    pose proof (square_file_lt sq) as Hf.
    assert (forallb (λ row : list float32,
                       bool_decide (square_file sq < length row))
              (np.full_plane 8 8 np.f0) = true) as ->; [|done].
    apply Is_true_true, forallb_True, Forall_forall.
    intros row Hrow%elem_of_replicate. apply bool_decide_pack.
    destruct Hrow as [-> _]. by rewrite length_replicate.
  - by rewrite list_insert_id.
Qed.

Lemma clock_fill (t : ndarray) v :
  t !! 18 = Some (np.full_plane 8 8 np.f0) →
  np.fill t 18 v = Ok (<[18 := np.full_plane 8 8 v]> t).
Proof. intros Hi. unfold np.fill. by rewrite Hi. Qed.

(** [board_to_tensor_extended] in closed form, up to the conversion of the
    clock. *)
Lemma board_to_tensor_extended_closed p :
  ∃ basic, board_to_tensor p = Ok basic ∧ np.shape 12 8 8 basic ∧
    (∀ c r f, c < 12 → r < 8 → f < 8 →
       np.getitem basic c r f = Ok (cell_of p c r f)) ∧
    board_to_tensor_extended p =
      (clock ← float_of_int (halfmove_clock p);
       Ok (basic ++ state_planes p clock)).
Proof.
  destruct (board_to_tensor_spec p) as (basic & Hbasic & Hsh & Hcells).
  exists basic. split; [done|]. split; [done|]. split; [done|].
  unfold board_to_tensor_extended. rewrite Hbasic.
  cbn [mbind result_bind]. unfold np.setprefix.
  rewrite decide_True by (by rewrite Hsh).
  cbn [mbind result_bind].
  pose proof (shape_length _ _ _ _ Hsh) as Hlen.
  destruct basic as [|b0 [|b1 [|b2 [|b3 [|b4 [|b5 [|b6 [|b7 [|b8 [|b9 [|b10
    [|b11 [|? ?]]]]]]]]]]]]]; simpl in Hlen; try lia.
  rewrite (flag_fill _ 12) by reflexivity. cbn [mbind result_bind].
  rewrite (flag_fill _ 13) by reflexivity. cbn [mbind result_bind].
  rewrite (flag_fill _ 14) by reflexivity. cbn [mbind result_bind].
  rewrite (flag_fill _ 15) by reflexivity. cbn [mbind result_bind].
  rewrite (flag_fill _ 16) by reflexivity. cbn [mbind result_bind].
  rewrite ep_fill by reflexivity. cbn [mbind result_bind].
  destruct (float_of_int (halfmove_clock p)) as [clock|e];
    cbn [mbind result_bind]; [|done].
  by rewrite clock_fill by reflexivity.
Qed.

(** X6.  The extended encoding in full: channels 0 to 11 are the basic
    encoding; channel 12 is 1.0 everywhere when White is to move and 0.0
    everywhere otherwise; channels 13 to 16 likewise for White's kingside
    and queenside and Black's kingside and queenside castling rights;
    channel 17 is the en-passant plane; channel 18 holds
    [min(halfmove_clock / 100.0, 1.0)], rounded to float32, everywhere. *)
Theorem encode_extended_planes (p : Board) (clock : float64) :
  float_of_int (halfmove_clock p) = Ok clock →
  ∃ basic, board_to_tensor p = Ok basic ∧
    board_to_tensor_extended p =
      Ok (basic ++
          [ flag_plane (turn p);
            flag_plane (has_kingside_castling_rights p WHITE);
            flag_plane (has_queenside_castling_rights p WHITE);
            flag_plane (has_kingside_castling_rights p BLACK);
            flag_plane (has_queenside_castling_rights p BLACK);
            ep_plane (ep_square p);
            np.full_plane 8 8
              (np.to_float32 (py_min (truediv clock f64_100) f64_1)) ]).
Proof.
  intros Hclock.
  destruct (board_to_tensor_extended_closed p) as (basic & Hb & _ & _ & ->).
  exists basic. split; [done|]. by rewrite Hclock.
Qed.

(** X7.  The only exception [board_to_tensor_extended] raises is the
    OverflowError of [halfmove_clock / 100.0], and it raises it exactly
    when the clock is too large to convert to a float. *)
Theorem encode_extended_only_overflow (p : Board) (e : exn) :
  board_to_tensor_extended p = Raise e ↔
  e = OverflowError ∧
  float_of_int (halfmove_clock p) = Raise OverflowError.
Proof.
  destruct (board_to_tensor_extended_closed p) as (basic & _ & _ & _ & ->).
  unfold float_of_int.
  destruct (binary_normalize _ _ _ _ _); cbn [mbind result_bind];
    split; try done; try by intros [_ [=]].
  - by intros [= <-].
  - by intros [-> _].
Qed.

Lemma clock_cells_from_spec fuel n m clock :
  clock_cells_from fuel n = true →
  (n ≤ m)%N → (m < n + N.of_nat fuel)%N →
  float_of_int m = Ok clock →
  ((100 ≤ m)%N → clock_cell clock = np.f1) ∧
  ((m < 100)%N →
     np.gt np.f1 (clock_cell clock) = true ∧
     np.gt np.f0 (clock_cell clock) = false).
Proof.
  revert n. induction fuel as [|fuel IH]; intros n Hrun Hle Hlt Hm; [lia|].
  cbn [clock_cells_from] in Hrun.
  destruct (float_of_int n) as [x|e] eqn:Hn; [|done].
  apply andb_prop in Hrun as [Hhere Hrest].
  destruct (decide (m = n)) as [->|Hne].
  - rewrite Hn in Hm. injection Hm as <-.
    destruct (100 <=? n)%N eqn:Hcmp; cbv beta iota zeta in Hhere.
    + apply N.leb_le in Hcmp. split; [|lia].
      intros _. by apply bool_decide_eq_true in Hhere.
    + apply N.leb_gt in Hcmp. split; [lia|]. intros _.
      apply andb_prop in Hhere as [? ?%negb_true_iff]. done.
  - apply (IH (N.succ n)); [done|lia|lia|done].
Qed.

(** X8.  The clock plane saturates: for every halfmove clock below 10000,
    [board_to_tensor_extended] returns an array whose channel 18 holds one
    value everywhere, which is 1.0 from clock 100 on and, for a clock below
    100, is less than 1.0 and not less than 0.0. *)
Theorem encode_extended_clock_plane (p : Board) :
  (halfmove_clock p < 10000)%N →
  ∃ t v, board_to_tensor_extended p = Ok t ∧
    t !! 18 = Some (np.full_plane 8 8 v) ∧
    ((100 ≤ halfmove_clock p)%N → v = np.f1) ∧
    ((halfmove_clock p < 100)%N →
       np.gt np.f1 v = true ∧ np.gt np.f0 v = false).
Proof.
  intros Hsmall.
  destruct (float_of_int_small (halfmove_clock p)) as [clock Hclock]; [lia|].
  destruct (board_to_tensor_extended_closed p)
    as (basic & _ & Hsh & _ & ->).
  rewrite Hclock. cbn [mbind result_bind].
  exists (basic ++ state_planes p clock), (clock_cell clock).
  split; [done|]. split.
  - rewrite lookup_app_r; rewrite (shape_length _ _ _ _ Hsh); [done|lia].
  - apply (clock_cells_from_spec (Nat.pow 10 4) 0 (halfmove_clock p));
      [by vm_compute | lia | | done].
    replace (N.of_nat (Nat.pow 10 4)) with 10000%N by (by vm_compute). lia.
Qed.

(** X9.  Decoding the extended encoding gives back the piece placement and
    nothing else: the decoded position has the pieces of the original on
    all 64 squares, and the game state of the empty board (White to move,
    no castling rights, no en-passant square, clock 0) whatever the
    original's was. *)
Theorem decode_encode_extended (p : Board) (clock : float64) :
  float_of_int (halfmove_clock p) = Ok clock →
  ∃ t b, board_to_tensor_extended p = Ok t ∧ tensor_to_board t = Ok b ∧
    (∀ sq, sq < 64 → piece_at b sq = piece_at p sq) ∧
    turn b = WHITE ∧
    has_kingside_castling_rights b WHITE = false ∧
    has_queenside_castling_rights b WHITE = false ∧
    has_kingside_castling_rights b BLACK = false ∧
    has_queenside_castling_rights b BLACK = false ∧
    ep_square b = None ∧
    halfmove_clock b = 0%N.
Proof.
  intros Hclock.
  destruct (board_to_tensor_extended_closed p)
    as (basic & _ & Hsh & Hcells & ->).
  rewrite Hclock. cbn [mbind result_bind].
  destruct (decode_of_cells p (basic ++ state_planes p clock))
    as (b & Hdec & Hgs & Hpieces).
  { intros c r f Hc Hr Hf. rewrite <-Hcells by done.
    unfold np.getitem. rewrite lookup_app_l; [done|].
    rewrite (shape_length _ _ _ _ Hsh). lia. }
  exists (basic ++ state_planes p clock), b.
  split; [done|]. split; [done|]. split; [done|].
  unfold game_state in Hgs. simpl in Hgs. by simplify_eq.
Qed.

(** ** More on flipping *)

Lemma map_plane_const h w v (p : plane) :
  plane_dims h w p → np.map_plane (λ _, v) p = np.full_plane h w v.
Proof.
  intros Hp. apply (plane_ext h w).
  - by apply plane_dims_map.
  - unfold plane_dims, np.full_plane.
    by rewrite fmap_replicate, length_replicate.
  - intros r f Hr Hf. unfold np.map_plane, np.full_plane.
    pose proof (plane_dims_length _ _ _ Hp) as Hlen.
    destruct (lookup_lt_is_Some_2 p r) as [row Hrow]; [lia|].
    pose proof (plane_dims_row _ _ _ _ _ Hp Hrow) as Hw.
    destruct (lookup_lt_is_Some_2 row f) as [x Hx]; [lia|].
    rewrite list_lookup_fmap, Hrow, lookup_replicate_2 by done. simpl.
    by rewrite list_lookup_fmap, Hx, lookup_replicate_2.
Qed.

(** Reading a cell of a rank-mirrored plane. *)
Lemma flip_cell h w (p : plane) r f :
  plane_dims h w p → r < h →
  np.flip p !! r ≫= (.!! f) = p !! (h - 1 - r) ≫= (.!! f).
Proof.
  intros Hp Hr. pose proof (plane_dims_length _ _ _ Hp) as Hlen.
  unfold np.flip. rewrite reverse_lookup by lia.
  by replace (length p - S r) with (h - 1 - r) by lia.
Qed.

Lemma getitem_cons0 (p : plane) (t : ndarray) r f :
  np.getitem (p :: t) 0 r f =
    match p !! r ≫= (.!! f) with Some v => Ok v | None => Raise IndexError end.
Proof. by apply getitem_plane. Qed.

(** The colour swap and rank mirror of channels 0 to 11, cell by cell, on
    an array whose first twelve planes are spelled out. *)
Lemma flipped12_cells h w
    (p0 p1 p2 p3 p4 p5 p6 p7 p8 p9 p10 p11 : plane) (rest rest' : ndarray) :
  Forall (plane_dims h w) [p0; p1; p2; p3; p4; p5; p6; p7; p8; p9; p10; p11] →
  ∀ i r f, i < 12 → r < h →
    np.getitem ([np.flip p6; np.flip p7; np.flip p8; np.flip p9;
                 np.flip p10; np.flip p11; np.flip p0; np.flip p1;
                 np.flip p2; np.flip p3; np.flip p4; np.flip p5] ++ rest')
               i r f =
    np.getitem ([p0; p1; p2; p3; p4; p5; p6; p7; p8; p9; p10; p11] ++ rest)
               (swap_channel i) (h - 1 - r) f.
Proof.
  intros Hall i r f Hi Hr.
  repeat (apply Forall_cons in Hall as [? Hall]).
  do 12 (destruct i as [|i];
    [ erewrite (getitem_plane _ _ r f) by reflexivity;
      erewrite (getitem_plane _ (swap_channel _) (h - 1 - r) f) by reflexivity;
      by erewrite flip_cell by done
    | ]).
  lia.
Qed.

Lemma plane_dims_full h w v : plane_dims h w (np.full_plane h w v).
Proof.
  unfold plane_dims, np.full_plane.
  by rewrite fmap_replicate, length_replicate.
Qed.

Lemma plane_dims_ep ep : plane_dims 8 8 (ep_plane ep).
Proof.
  destruct ep as [sq|]; [|apply plane_dims_full].
  unfold plane_dims, ep_plane, np.full_plane.
  by rewrite !fmap_replicate, length_insert, length_replicate.
Qed.

#[local] Hint Resolve plane_dims_full plane_dims_ep : dims.

Lemma piece_channel_swap piece :
  piece_channel (swap_color piece) = swap_channel (piece_channel piece).
Proof. by destruct piece as [[] []]. Qed.

Lemma swap_channel_lt6 i : i < 6 → swap_channel i = i + 6.
Proof. intros. unfold swap_channel. by rewrite decide_True. Qed.

Lemma swap_channel_ge6 i : swap_channel (i + 6) = i.
Proof. unfold swap_channel. rewrite decide_False by lia. lia. Qed.

(** Split an array of at least 17 planes into its first 12, the next 5 and
    the rest. *)
Ltac planes17 x Hlen Hall H12 H5 Hrest :=
  destruct x as [|p0 [|p1 [|p2 [|p3 [|p4 [|p5 [|p6 [|p7 [|p8 [|p9 [|p10
    [|p11 [|p12 [|p13 [|p14 [|p15 [|p16 x]]]]]]]]]]]]]]]]];
    simpl in Hlen; try lia;
  apply (Forall_app _ [p0; p1; p2; p3; p4; p5; p6; p7; p8; p9; p10; p11])
    in Hall as [H12 Hall];
  apply (Forall_app _ [p12; p13; p14; p15; p16]) in Hall as [H5 Hrest].

Ltac planes12 x Hlen :=
  destruct x as [|p0 [|p1 [|p2 [|p3 [|p4 [|p5 [|p6 [|p7 [|p8 [|p9 [|p10
    [|p11 [|? ?]]]]]]]]]]]]]; simpl in Hlen; try lia.

(** X10.  The colour swap and rank mirror: on an array of 12 channels, or
    of 17 or more, of any [h] ranks and [w] files, [flip_board_tensor]
    returns an array of the same shape in which rank [r] of channel [i]
    (a White piece channel, [i < 6]) is rank [h - 1 - r] of the input's
    channel [i + 6], and rank [r] of channel [i + 6] is rank [h - 1 - r]
    of the input's channel [i]. *)
Theorem flip_piece_channels dt c h w (x : ndarray) :
  np.shape c h w x → c = 12 ∨ 17 ≤ c →
  ∃ y, flip_board_tensor dt x = Ok y ∧ np.shape c h w y ∧
    ∀ i r f, i < 6 → r < h →
      np.getitem y i r f = np.getitem x (i + 6) (h - 1 - r) f ∧
      np.getitem y (i + 6) r f = np.getitem x i (h - 1 - r) f.
Proof.
  intros Hsh Hc.
  assert (∃ y, flip_board_tensor dt x = Ok y ∧ np.shape c h w y)
    as (y & Hflip & Hshy).
  { destruct Hc as [-> | Hc];
      [by apply flip_12_returns | by apply flip_ge17_returns]. }
  exists y. split; [done|]. split; [done|].
  apply shape_planes in Hsh as [Hlen Hall].
  intros i r f Hi Hr.
  assert (∀ rest rest' q0 q1 q2 q3 q4 q5 q6 q7 q8 q9 q10 q11,
    Forall (plane_dims h w) [q0; q1; q2; q3; q4; q5; q6; q7; q8; q9; q10; q11] →
    x = [q0; q1; q2; q3; q4; q5; q6; q7; q8; q9; q10; q11] ++ rest →
    y = [np.flip q6; np.flip q7; np.flip q8; np.flip q9; np.flip q10;
         np.flip q11; np.flip q0; np.flip q1; np.flip q2; np.flip q3;
         np.flip q4; np.flip q5] ++ rest' →
    np.getitem y i r f = np.getitem x (i + 6) (h - 1 - r) f ∧
    np.getitem y (i + 6) r f = np.getitem x i (h - 1 - r) f) as Hcells.
  { intros rest rest' q0 q1 q2 q3 q4 q5 q6 q7 q8 q9 q10 q11 Hq -> ->.
    pose proof (flipped12_cells h w _ _ _ _ _ _ _ _ _ _ _ _ rest rest' Hq)
      as Hc12.
    split.
    - rewrite (Hc12 i r f) by lia. by rewrite swap_channel_lt6.
    - rewrite (Hc12 (i + 6) r f) by lia. by rewrite swap_channel_ge6. }
  destruct Hc as [-> | Hc].
  - planes12 x Hlen.
    rewrite (flip_12 dt h w p0 p1 p2 p3 p4 p5 p6 p7 p8 p9 p10 p11 Hall) in Hflip.
    injection Hflip as <-.
    by apply (Hcells [] [] p0 p1 p2 p3 p4 p5 p6 p7 p8 p9 p10 p11 Hall).
  - planes17 x Hlen Hall H12 H5 Hrest.
    pose proof (eq_trans (eq_sym Hflip)
      (flip_ge17 dt h w p0 p1 p2 p3 p4 p5 p6 p7 p8 p9 p10 p11 H12
         p12 p13 p14 p15 p16 H5 x Hrest)) as Hy.
    injection Hy as ->.
    eapply (Hcells _ _ p0 p1 p2 p3 p4 p5 p6 p7 p8 p9 p10 p11 H12);
      reflexivity.
Qed.

(** X11.  The extended channels for any channel count from 17 on, on an
    array of dtype [dt]: channels 12 to 16 as for 19 channels, [1.0 - x[12]]
    being taken in the format of [dt]; channel 17 rank-mirrored and
    channel 18 copied where the input has them (an array of 17 channels
    has neither, one of 18 has no channel 18); every channel from 19 on is
    zero in the output, whatever the input holds there. *)
Theorem flip_trailing_channels dt c h w (x : ndarray) :
  np.shape c h w x → 17 ≤ c →
  ∃ y, flip_board_tensor dt x = Ok y ∧
    y !! 12 = np.rsub dt (np.one dt) <$> x !! 12 ∧
    y !! 13 = x !! 15 ∧ y !! 15 = x !! 13 ∧
    y !! 14 = x !! 16 ∧ y !! 16 = x !! 14 ∧
    y !! 17 = np.flip <$> x !! 17 ∧
    y !! 18 = x !! 18 ∧
    ∀ j, 19 ≤ j → j < c → y !! j = Some (np.full_plane h w np.f0).
Proof.
  intros [Hlen Hall]%shape_planes Hc.
  planes17 x Hlen Hall H12 H5 Hrest.
  eexists. split; [by apply (flip_ge17 dt h w)|].
  destruct x as [|p17 [|p18 rest]].
  - repeat split; try done. intros j Hj Hjc. simpl in Hlen. lia.
  - repeat split; try done. intros j Hj Hjc. simpl in Hlen. lia.
  - repeat split; try done. intros j Hj Hjc.
    replace j with (19 + (j - 19)) by lia. simpl.
    unfold np.zeros_like. rewrite list_lookup_fmap.
    destruct (lookup_lt_is_Some_2 rest (j - 19)) as [q Hq];
      [simpl in Hlen; lia|].
    rewrite Hq. simpl. f_equal. apply map_plane_const.
    apply (Forall_lookup_1 _ _ (2 + (j - 19)) q Hrest). done.
Qed.

(** Flipping the encoding of [p], cell by cell, when [q] has the pieces of
    [p] seen from the other side. *)
Lemma flip_encode_cells (p q : Board) (t : ndarray) :
  mirrored_pieces p q →
  board_to_tensor p = Ok t →
  flip_board_tensor np.float32 t = board_to_tensor q.
Proof.
  intros Hmir Henc.
  destruct (board_to_tensor_spec p) as (t0 & Henc0 & Hsh & Hcells).
  rewrite Henc in Henc0. injection Henc0 as <-.
  destruct (board_to_tensor_spec q) as (t' & -> & Hsh' & Hcells').
  apply shape_planes in Hsh as Hpl. destruct Hpl as [Hlen Hall].
  planes12 t Hlen.
  rewrite (flip_12 np.float32 8 8 p0 p1 p2 p3 p4 p5 p6 p7 p8 p9 p10 p11 Hall).
  f_equal. apply (ndarray_ext 12 8 8); [|done|].
  { apply shape_planes. split; [done|].
    repeat (apply Forall_cons in Hall as [? Hall]). solve_dims. }
  intros i r f Hi Hr Hf.
  etrans.
  { exact (flipped12_cells 8 8 p0 p1 p2 p3 p4 p5 p6 p7 p8 p9 p10 p11 [] []
             Hall i r f Hi Hr). }
  cbn [app].
  assert (swap_channel i < 12) as Hsw.
  { unfold swap_channel. case_decide; lia. }
  rewrite Hcells, Hcells' by (done || lia).
  unfold cell_of. f_equal. apply decide_ext.
  specialize (Hmir (8 - 1 - r) f ltac:(lia) Hf).
  replace (7 - (8 - 1 - r)) with r in Hmir by lia. rewrite Hmir.
  destruct (piece_at p (square f (8 - 1 - r))) as [piece|]; simpl; [|done].
  rewrite piece_channel_swap. pose proof (piece_channel_lt piece).
  unfold swap_channel in *.
  repeat case_decide; split; intros [=]; f_equal; lia.
Qed.

(** X12.  Flipping is mirroring the position: when [q] has the pieces of
    [p] seen from the other side (ranks mirrored, colours swapped), the
    flip of the basic encoding of [p] is the basic encoding of [q]. *)
Theorem flip_encode_basic (p q : Board) :
  mirrored_pieces p q →
  ∃ t t', board_to_tensor p = Ok t ∧ board_to_tensor q = Ok t' ∧
    flip_board_tensor np.float32 t = Ok t' ∧ flip_board_tensor np.float32 t' = Ok t.
Proof.
  intros Hmir.
  destruct (board_to_tensor_spec p) as (t & Henc & Hsh & _).
  destruct (board_to_tensor_spec q) as (t' & Henc' & Hsh' & _).
  exists t, t'. split; [done|]. split; [done|].
  split; [by rewrite (flip_encode_cells p q t Hmir Henc)|].
  rewrite (flip_encode_cells q p t'); [done| |done].
  intros r f Hr Hf. specialize (Hmir (7 - r) f ltac:(lia) Hf).
  replace (7 - (7 - r)) with r in Hmir by lia. rewrite Hmir.
  destruct (piece_at p (square f (7 - r))) as [[pt col]|]; simpl; [|done].
  unfold swap_color. simpl. by rewrite negb_involutive.
Qed.

Lemma rsub_flag b :
  np.rsub np.float32 (np.one np.float32) (flag_plane b) = flag_plane (negb b).
Proof. by destruct b; vm_compute. Qed.

Lemma flip_ep_plane ep1 ep2 :
  square_file <$> ep2 = square_file <$> ep1 →
  np.flip (ep_plane ep1) = ep_plane ep2.
Proof.
  intros Hfile.
  destruct ep1 as [sq1|], ep2 as [sq2|]; simpl in Hfile; try done.
  injection Hfile as Hfile. unfold np.flip, ep_plane, np.full_plane.
  by rewrite Hfile, fmap_replicate, reverse_replicate.
Qed.

Lemma plane_dims_flag b : plane_dims 8 8 (flag_plane b).
Proof. apply plane_dims_full. Qed.

#[local] Hint Resolve plane_dims_flag : dims.

(** The flip of an extended encoding, plane by plane. *)
Lemma flip_extended_closed (p : Board) (clock : float64) (basic : ndarray) :
  board_to_tensor p = Ok basic →
  ∃ flipped, flip_board_tensor np.float32 basic = Ok flipped ∧
    flip_board_tensor np.float32 (basic ++ state_planes p clock) =
      Ok (flipped ++
          [ flag_plane (negb (turn p));
            flag_plane (has_kingside_castling_rights p BLACK);
            flag_plane (has_queenside_castling_rights p BLACK);
            flag_plane (has_kingside_castling_rights p WHITE);
            flag_plane (has_queenside_castling_rights p WHITE);
            np.flip (ep_plane (ep_square p));
            np.full_plane 8 8 (clock_cell clock) ]).
Proof.
  intros Henc.
  destruct (board_to_tensor_spec p) as (t0 & Henc0 & Hsh & _).
  rewrite Henc in Henc0. injection Henc0 as <-.
  apply shape_planes in Hsh as [Hlen Hall].
  planes12 basic Hlen.
  eexists. split; [exact (flip_12 np.float32 8 8 _ _ _ _ _ _ _ _ _ _ _ _ Hall)|].
  etrans.
  { exact (flip_ge17 np.float32 8 8 p0 p1 p2 p3 p4 p5 p6 p7 p8 p9 p10 p11 Hall
             (flag_plane (turn p))
             (flag_plane (has_kingside_castling_rights p WHITE))
             (flag_plane (has_queenside_castling_rights p WHITE))
             (flag_plane (has_kingside_castling_rights p BLACK))
             (flag_plane (has_queenside_castling_rights p BLACK))
             ltac:(solve_dims)
             [ep_plane (ep_square p); np.full_plane 8 8 (clock_cell clock)]
             ltac:(solve_dims)). }
  cbn [app]. by rewrite rsub_flag.
Qed.

(** X13.  Flipping is mirroring the position, game state included: when
    [q] is [p] seen from the other side (pieces mirrored, the other side to
    move, castling rights exchanged between the colours, en-passant square
    on the same file, same halfmove clock), the flip of the extended
    encoding of [p] is the extended encoding of [q]. *)
Theorem flip_encode_extended (p q : Board) (clock : float64) :
  mirrored p q →
  float_of_int (halfmove_clock p) = Ok clock →
  ∃ t t', board_to_tensor_extended p = Ok t ∧
    board_to_tensor_extended q = Ok t' ∧
    flip_board_tensor np.float32 t = Ok t'.
Proof.
  intros (Hpieces & Hturn & Hwk & Hwq & Hbk & Hbq & Hep & Hclk) Hclock.
  destruct (board_to_tensor_extended_closed p) as (basic & Hb & _ & _ & ->).
  destruct (board_to_tensor_extended_closed q) as (basic' & Hb' & _ & _ & ->).
  rewrite Hclk, Hclock. cbn [mbind result_bind].
  exists (basic ++ state_planes p clock), (basic' ++ state_planes q clock).
  split; [done|]. split; [done|].
  destruct (flip_extended_closed p clock basic Hb) as (flipped & Hfl & ->).
  rewrite (flip_encode_cells p q basic Hpieces Hb), Hb' in Hfl.
  injection Hfl as <-.
  unfold state_planes.
  by rewrite Hturn, Hwk, Hwq, Hbk, Hbq, (flip_ep_plane _ (ep_square q)).
Qed.

(** X14.  On the extended encoding of any position flipping is an
    involution: the encoder's side-to-move plane is all 1.0 or all 0.0, so
    flipping the flipped array returns the encoding itself. *)
Theorem flip_flip_encode_extended (p : Board) (clock : float64) :
  float_of_int (halfmove_clock p) = Ok clock →
  ∃ t y, board_to_tensor_extended p = Ok t ∧
    flip_board_tensor np.float32 t = Ok y ∧ flip_board_tensor np.float32 y = Ok t.
Proof.
  intros Hclock.
  destruct (board_to_tensor_extended_closed p) as (basic & Hb & Hsh & _ & ->).
  rewrite Hclock. cbn [mbind result_bind].
  destruct (flip_extended_closed p clock basic Hb) as (flipped & Hfl & Hfle).
  eexists _, _. split; [done|]. split; [exact Hfle|].
  apply shape_planes in Hsh as [Hlen Hall].
  planes12 basic Hlen.
  rewrite (flip_12 np.float32 8 8 _ _ _ _ _ _ _ _ _ _ _ _ Hall) in Hfl.
  injection Hfl as <-.
  repeat (apply Forall_cons in Hall as [? Hall]).
  etrans.
  { exact (flip_ge17 np.float32 8 8 (np.flip p6) (np.flip p7) (np.flip p8) (np.flip p9)
             (np.flip p10) (np.flip p11) (np.flip p0) (np.flip p1)
             (np.flip p2) (np.flip p3) (np.flip p4) (np.flip p5)
             ltac:(solve_dims)
             (flag_plane (negb (turn p)))
             (flag_plane (has_kingside_castling_rights p BLACK))
             (flag_plane (has_queenside_castling_rights p BLACK))
             (flag_plane (has_kingside_castling_rights p WHITE))
             (flag_plane (has_queenside_castling_rights p WHITE))
             ltac:(solve_dims)
             [np.flip (ep_plane (ep_square p));
              np.full_plane 8 8 (clock_cell clock)]
             ltac:(solve_dims)). }
  cbn [app]. unfold state_planes.
  by rewrite !flip_flip, rsub_flag, negb_involutive.
Qed.

(** ** The text view *)

Lemma string_app_assoc (s1 s2 s3 : string) :
  (s1 +:+ s2) +:+ s3 = s1 +:+ (s2 +:+ s3).
Proof.
  induction s1 as [|a s1 IH]; [done|].
  change (String a ((s1 +:+ s2) +:+ s3) = String a (s1 +:+ (s2 +:+ s3))).
  by rewrite IH.
Qed.

(** The loop over the files of a rank, when every step appends a text. *)
Lemma line_loop (body : nat → string → result string) (cell : nat → string) :
  (∀ col line, col < 8 → body col line = Ok (line +:+ cell col)) →
  for_each (range 8) body "" = Ok (row_of cell).
Proof.
  intros Hbody.
  rewrite (for_each_ext _ _ (λ col line, Ok (line +:+ cell col)))
    by (intros col line Hcol%range_elem; by apply Hbody).
  unfold range, row_of. simpl. by rewrite !string_app_assoc.
Qed.

(** The loop over the ranks, when every rank has a line. *)
Lemma print_ranks_ok (line_of : nat → result string) (body : nat → string) :
  (∀ r, r < 8 → line_of r = Ok (body r)) →
  print_ranks rank_rows line_of =
    ((λ r, pretty (r + 1) +:+ " " +:+ body r) <$> rank_rows, Ok ()).
Proof.
  intros Hline. unfold rank_rows, range. cbn [seq reverse rev_append].
  cbn [print_ranks]. by rewrite !Hline by lia.
Qed.

(** ... and when the first rank read, rank 8, has none. *)
Lemma print_ranks_raise (line_of : nat → result string) e :
  line_of 7 = Raise e → print_ranks rank_rows line_of = ([], Raise e).
Proof.
  intros Hline. unfold rank_rows, range. cbn [seq reverse rev_append].
  cbn [print_ranks]. by rewrite Hline.
Qed.

Lemma shape_getitem c h w (t : ndarray) i r f :
  np.shape c h w t → i < c → r < h → f < w →
  ∃ v, np.getitem t i r f = Ok v.
Proof.
  intros Hsh Hi Hr Hf.
  destruct (shape_lookup c h w t i Hsh Hi) as (p & Hp & Hd).
  pose proof (plane_dims_length _ _ _ Hd) as Hlen.
  destruct (lookup_lt_is_Some_2 p r) as [row Hrow]; [lia|].
  pose proof (plane_dims_row _ _ _ _ _ Hd Hrow) as Hw.
  destruct (lookup_lt_is_Some_2 row f) as [v Hv]; [lia|].
  exists v. unfold np.getitem. by rewrite Hp, Hrow, Hv.
Qed.

Lemma shape_getitem_raise c h w (t : ndarray) i r f :
  np.shape c h w t → c ≤ i ∨ h ≤ r ∨ w ≤ f →
  np.getitem t i r f = Raise IndexError.
Proof.
  intros Hsh Hbad. unfold np.getitem.
  destruct (t !! i) as [p|] eqn:Hp; [|done].
  assert (plane_dims h w p) as Hd.
  { apply shape_planes in Hsh as [_ Hall]. by eapply Forall_lookup_1. }
  apply lookup_lt_Some in Hp as Hi.
  rewrite (shape_length _ _ _ _ Hsh) in Hi.
  destruct (p !! r) as [row|] eqn:Hrow; [|done].
  apply lookup_lt_Some in Hrow as Hr.
  rewrite (plane_dims_length _ _ _ Hd) in Hr.
  pose proof (plane_dims_row _ _ _ _ _ Hd Hrow) as Hw.
  rewrite lookup_ge_None_2; [done|lia].
Qed.

Lemma symbol_of_channel c :
  c < 12 → dict_get piece_symbols c = Ok (default "" (piece_symbols !! c)).
Proof.
  intros Hc. unfold dict_get.
  destruct (lookup_lt_is_Some_2 piece_symbols c) as [s Hs]; [simpl; lia|].
  by rewrite Hs.
Qed.

(** The search with [break] finds the lowest channel above 0.5. *)
Lemma first_symbol_spec (t : ndarray) r f (chs : list nat) :
  (∀ c, c ∈ chs → c < 12 ∧ ∃ v, np.getitem t c r f = Ok v) →
  first_symbol t r f chs =
    Ok ((λ c, default "" (piece_symbols !! c)) <$> lowest_active t r f chs).
Proof.
  induction chs as [|c chs IH]; intros Hread; [done|].
  destruct (Hread c) as (Hc & v & Hv); [by left|].
  simpl. unfold active. rewrite Hv. cbn [mbind result_bind].
  destruct (np.gt v np.fhalf).
  - by rewrite symbol_of_channel.
  - apply IH. intros c' Hc'. apply Hread. by right.
Qed.

Lemma first_symbol_ok_or (t : ndarray) r f (chs : list nat) :
  (∀ c, c ∈ chs → c < 12) →
  (∃ found, first_symbol t r f chs = Ok found) ∨
  first_symbol t r f chs = Raise IndexError.
Proof.
  induction chs as [|c chs IH]; intros Hchs; [left; by eexists|].
  simpl. destruct (getitem_ok_or t c r f) as [[v ->] | ->]; [|by right].
  cbn [mbind result_bind]. destruct (np.gt v np.fhalf).
  - rewrite symbol_of_channel by (apply Hchs; by left). left. by eexists.
  - apply IH. intros c' Hc'. apply Hchs. by right.
Qed.

Lemma combined_line_ok (t : ndarray) r :
  (∀ c f, c < 12 → f < 8 → ∃ v, np.getitem t c r f = Ok v) →
  combined_line t r =
    Ok (row_of (λ f, found_text (lowest_active t r f (range 12)))).
Proof.
  intros Hread. unfold combined_line. apply line_loop.
  intros col line Hcol. rewrite first_symbol_spec.
  - cbn [mbind result_bind]. unfold found_text.
    by destruct (lowest_active t r col (range 12)).
  - intros c Hc%range_elem. split; [done|]. by apply Hread.
Qed.

Lemma combined_line_raise c h w (t : ndarray) :
  np.shape c h w t → c = 0 ∨ h < 8 ∨ w < 8 →
  combined_line t 7 = Raise IndexError.
Proof.
  intros Hsh Hbad. unfold combined_line.
  assert (∀ col line,
    (∃ line', (found ← first_symbol t 7 col (range 12);
               Ok (match found with
                   | Some s => line +:+ (s +:+ " ")
                   | None => line +:+ ". "
                   end)) = Ok line') ∨
    (found ← first_symbol t 7 col (range 12);
     Ok (match found with
         | Some s => line +:+ (s +:+ " ")
         | None => line +:+ ". "
         end)) = Raise IndexError) as Hok.
  { intros col line.
    destruct (first_symbol_ok_or t 7 col (range 12)) as [[found ->] | ->];
      [by intros ? ?%range_elem | left; by eexists | by right]. }
  assert (∀ col, c = 0 ∨ h < 8 ∨ w ≤ col →
    first_symbol t 7 col (range 12) = Raise IndexError) as Hfirst.
  { intros col Hcol. unfold range. simpl.
    rewrite (shape_getitem_raise c h w t 0 7 col Hsh); [done|lia]. }
  assert (∃ col, col < 8 ∧ (c = 0 ∨ h < 8 ∨ w ≤ col)) as (col & Hcol & Hbc).
  { destruct (decide (c = 0 ∨ h < 8)); [exists 0 | exists w]; split; lia. }
  apply (for_each_raise _ _ _ col).
  - intros. apply Hok.
  - by apply range_elem.
  - intros line. by rewrite Hfirst.
Qed.

(** X15.  The combined view on any array.  With at least 12 channels of at
    least 8 by 8 cells the call prints ten lines and returns: the header,
    the ranks from 8 down to 1, each with its number and, per file, the
    symbol of the lowest channel above 0.5 (where [tensor_to_board] keeps
    the highest) or a dot, and the footer.  With no channel, or fewer than 8
    ranks or files, it prints the header alone and raises IndexError. *)
Theorem visualize_combined c h w (t : ndarray) :
  np.shape c h w t →
  (12 ≤ c ∧ 8 ≤ h ∧ 8 ≤ w →
     visualize_tensor t None =
       ("Combined view:"
          :: (rank_line (λ r f, found_text (lowest_active t r f (range 12)))
                <$> rank_rows)
          ++ [file_footer],
        Ok ())) ∧
  (c = 0 ∨ h < 8 ∨ w < 8 →
     visualize_tensor t None = (["Combined view:"], Raise IndexError)).
Proof.
  intros Hsh. unfold visualize_tensor. split.
  - intros (Hc & Hh & Hw).
    rewrite (print_ranks_ok _
      (λ r, row_of (λ f, found_text (lowest_active t r f (range 12))))).
    + done.
    + intros r Hr. apply combined_line_ok. intros ch f Hch Hf.
      apply (shape_getitem c h w); [done|lia..].
  - intros Hbad.
    by rewrite (print_ranks_raise _ IndexError)
      by (by apply (combined_line_raise c h w)).
Qed.

(** On the encoding of a position the lowest channel above 0.5 is the
    channel of the piece on the square. *)
Lemma lowest_active_one (t : ndarray) r f (found : option nat) a n :
  (∀ c, a ≤ c → c < a + n →
     active t c r f = bool_decide (found = Some c)) →
  lowest_active t r f (seq a n) =
    match found with
    | Some c0 => if decide (a ≤ c0 ∧ c0 < a + n) then Some c0 else None
    | None => None
    end.
Proof.
  revert a. induction n as [|n IH]; intros a Hact.
  - destruct found as [c0|]; [|done]. by rewrite decide_False by lia.
  - simpl. rewrite Hact by lia.
    rewrite IH by (intros c ? ?; apply Hact; lia).
    destruct found as [c0|]; [|done].
    case_bool_decide as Hc0.
    + injection Hc0 as ->. by rewrite decide_True by lia.
    + apply decide_ext. split; intros [? ?]; split; try lia.
      destruct (decide (c0 = a)); [congruence|lia].
Qed.

(** X16.  The combined view of an encoded position draws the position: a
    header, then the ranks from 8 down to 1, each with its number and, per
    file from a to h, the letter of the piece on the square (P N B R Q K
    for White, p n b r q k for Black) or a dot, then the footer; nothing is
    raised. *)
Theorem visualize_encoded_board (p : Board) :
  ∃ t, board_to_tensor p = Ok t ∧
    visualize_tensor t None =
      ("Combined view:" :: (rank_line (square_text p) <$> rank_rows)
         ++ [file_footer],
       Ok ()).
Proof.
  destruct (board_to_tensor_spec p) as (t & Henc & Hsh & Hcells).
  exists t. split; [done|].
  unfold visualize_tensor.
  rewrite (print_ranks_ok _ (λ r, row_of (square_text p r))); [done|].
  intros r Hr. unfold combined_line. apply line_loop.
  intros col line Hcol. rewrite first_symbol_spec.
  2:{ intros c Hc%range_elem. split; [done|]. eexists. by apply Hcells. }
  cbn [mbind result_bind]. unfold range.
  rewrite (lowest_active_one t r col
             (piece_channel <$> piece_at p (square col r)) 0 12).
  2:{ intros c _ Hc. by apply active_encoded. }
  unfold square_text, found_text.
  destruct (piece_at p (square col r)) as [piece|]; simpl; [|done].
  pose proof (piece_channel_lt piece). by rewrite decide_True by lia.
Qed.

Lemma axis_index_ok n i :
  (- Z.of_nat n ≤ i < Z.of_nat n)%Z →
  axis_index n i = Ok (wrapped n i) ∧ wrapped n i < n.
Proof.
  intros Hi. unfold axis_index, wrapped.
  destruct (decide (i < 0)%Z).
  - rewrite decide_False, decide_True by lia. split; [done|lia].
  - rewrite decide_True by lia. split; [done|lia].
Qed.

Lemma axis_index_raise n i :
  ¬ (- Z.of_nat n ≤ i < Z.of_nat n)%Z → axis_index n i = Raise IndexError.
Proof. intros Hi. unfold axis_index. by rewrite !decide_False by lia. Qed.

(** X17.  The view of one channel.  For a channel index from [-c] to
    [c - 1] (a negative index counts from the last channel) on an array of
    [c] channels of at least 8 by 8 cells, the call prints ten lines and
    returns: the header with the index as given, the ranks from 8 down to
    1, each with its number and, per file, a 1 where the cell exceeds 0.5
    and a dot elsewhere, and the footer.  For any other index, or with
    fewer than 8 ranks or files, it prints the header alone and raises
    IndexError: no board is ever printed in part. *)
Theorem visualize_channel c h w (t : ndarray) (ch : Z) :
  np.shape c h w t →
  ((- Z.of_nat c ≤ ch < Z.of_nat c)%Z ∧ 8 ≤ h ∧ 8 ≤ w →
     visualize_tensor t (Some ch) =
       (("Channel " +:+ pretty ch +:+ ":")
          :: (rank_line (mark_text t (wrapped c ch)) <$> rank_rows)
          ++ [file_footer],
        Ok ())) ∧
  (¬ (- Z.of_nat c ≤ ch < Z.of_nat c)%Z ∨ h < 8 ∨ w < 8 →
     visualize_tensor t (Some ch) =
       (["Channel " +:+ pretty ch +:+ ":"], Raise IndexError)).
Proof.
  intros Hsh. pose proof (shape_length _ _ _ _ Hsh) as Hlen.
  unfold visualize_tensor. split.
  - intros (Hch & Hh & Hw).
    destruct (axis_index_ok c ch Hch) as [Hidx Hlt].
    rewrite (print_ranks_ok _ (λ r, row_of (mark_text t (wrapped c ch) r)));
      [done|].
    intros r Hr. unfold channel_line. apply line_loop.
    intros col line Hcol. rewrite Hlen, Hidx. cbn [mbind result_bind].
    destruct (shape_getitem c h w t (wrapped c ch) r col Hsh) as [v Hv];
      [lia..|].
    unfold mark_text, active. by rewrite Hv.
  - intros Hbad.
    rewrite (print_ranks_raise _ IndexError); [done|].
    unfold channel_line. rewrite Hlen.
    destruct (decide (- Z.of_nat c ≤ ch < Z.of_nat c)%Z) as [Hch|Hch].
    + destruct (axis_index_ok c ch Hch) as [Hidx Hlt].
      assert (∃ col, col < 8 ∧ (h ≤ 7 ∨ w ≤ col)) as (col & Hcol & Hbc).
      { destruct (decide (h < 8)); [exists 0 | exists w]; split; lia. }
      apply (for_each_raise _ _ _ col).
      * intros col' line _. rewrite Hidx. cbn [mbind result_bind].
        destruct (getitem_ok_or t (wrapped c ch) 7 col') as [[v ->] | ->];
          [left; by eexists | by right].
      * by apply range_elem.
      * intros line. rewrite Hidx. cbn [mbind result_bind].
        by rewrite (shape_getitem_raise c h w t _ 7 col Hsh) by lia.
    + apply (for_each_raise _ _ _ 0).
      * intros col' line _. by rewrite axis_index_raise; [right|].
      * apply range_elem. lia.
      * intros line. by rewrite axis_index_raise.
Qed.

(** ** The further properties at the positions of the test suite *)

Lemma encoded_one_hot (p : Board) (t : ndarray) :
  board_to_tensor p = Ok t → one_hot t.
Proof.
  intros Henc.
  destruct (board_to_tensor_spec p) as (t0 & Henc0 & _ & Hcells).
  rewrite Henc in Henc0. injection Henc0 as <-. split.
  - intros c r f ???. rewrite Hcells by done. unfold cell_of.
    case_decide; eauto.
  - intros c1 c2 r f ????. rewrite !Hcells by done. unfold cell_of.
    repeat case_decide; intros [=] [=]. congruence.
Qed.

Lemma after_e4_mirrored_pieces : mirrored_pieces after_e4 after_e4_mirrored.
Proof.
  intros r f Hr Hf.
  do 8 (destruct r as [|r];
        [do 8 (destruct f as [|f]; [by vm_compute|]); lia|]).
  lia.
Qed.

Example test_visualize_after_e4 :
  visualize_tensor after_e4_basic None =
    (["Combined view:";
      "8 r n b q k b n r "; "7 p p p p p p p p "; "6 . . . . . . . . ";
      "5 . . . . . . . . "; "4 . . . . P . . . "; "3 . . . . . . . . ";
      "2 P P P P . P P P "; "1 R N B Q K B N R ";
      "  a b c d e f g h"], Ok ()).
Proof. by vm_compute. Qed.

Lemma encode_reads_placement_only_witness :
  board_to_tensor after_e4 = board_to_tensor after_e4_other_state.
Proof. apply encode_reads_placement_only. intros sq _. reflexivity. Defined.

Lemma decode_threshold_witness :
  ∃ b, tensor_to_board multi_hot = Ok b ∧
    (∀ r f, r < 8 → f < 8 →
       (piece_at b (square f r) = None ↔
        ∀ ch, ch < 12 → active multi_hot ch r f = false) ∧
       (∀ m, m < 12 → active multi_hot m r f = true →
          (∀ ch, ch < 12 → active multi_hot ch r f = true → ch ≤ m) →
          piece_at b (square f r) = channel_piece m)) ∧
    (∀ sq, 64 ≤ sq → piece_at b sq = None).
Proof.
  apply (decode_threshold 12 8 8 multi_hot); [by vm_compute | lia | lia | lia].
Defined.

Lemma decode_nothing_active_witness :
  tensor_to_board all_half = Ok chess.empty.
Proof.
  apply (decode_nothing_active 13 8 8 all_half);
    [by vm_compute | lia | lia | lia |].
  intros ch r f Hch Hr Hf. unfold active, np.getitem, all_half, np.full_plane.
  by rewrite !lookup_replicate_2 by lia.
Defined.

Lemma encode_decode_one_hot_witness :
  ∃ b, tensor_to_board after_e4_basic = Ok b ∧
       board_to_tensor b = Ok after_e4_basic.
Proof.
  apply encode_decode_one_hot; [by vm_compute|].
  apply (encoded_one_hot after_e4). by vm_compute.
Defined.

Lemma encode_extended_planes_witness :
  ∃ basic, board_to_tensor after_e4 = Ok basic ∧
    board_to_tensor_extended after_e4 =
      Ok (basic ++
          [ flag_plane (turn after_e4);
            flag_plane (has_kingside_castling_rights after_e4 WHITE);
            flag_plane (has_queenside_castling_rights after_e4 WHITE);
            flag_plane (has_kingside_castling_rights after_e4 BLACK);
            flag_plane (has_queenside_castling_rights after_e4 BLACK);
            ep_plane (ep_square after_e4);
            np.full_plane 8 8
              (np.to_float32
                 (py_min (truediv (S754_zero false) f64_100) f64_1)) ]).
Proof. apply encode_extended_planes. by vm_compute. Defined.

Lemma encode_extended_only_overflow_witness :
  board_to_tensor_extended huge_clock = Raise OverflowError.
Proof.
  apply (proj2 (encode_extended_only_overflow huge_clock OverflowError)).
  split; [done | by vm_compute].
Defined.

Lemma encode_extended_clock_plane_witness :
  ∃ t v, board_to_tensor_extended clock_150 = Ok t ∧
    t !! 18 = Some (np.full_plane 8 8 v) ∧
    ((100 ≤ halfmove_clock clock_150)%N → v = np.f1) ∧
    ((halfmove_clock clock_150 < 100)%N →
       np.gt np.f1 v = true ∧ np.gt np.f0 v = false).
Proof. apply encode_extended_clock_plane. by vm_compute. Defined.

Lemma decode_encode_extended_witness :
  ∃ t b, board_to_tensor_extended after_e4 = Ok t ∧
    tensor_to_board t = Ok b ∧
    (∀ sq, sq < 64 → piece_at b sq = piece_at after_e4 sq) ∧
    turn b = WHITE ∧
    has_kingside_castling_rights b WHITE = false ∧
    has_queenside_castling_rights b WHITE = false ∧
    has_kingside_castling_rights b BLACK = false ∧
    has_queenside_castling_rights b BLACK = false ∧
    ep_square b = None ∧
    halfmove_clock b = 0%N.
Proof.
  apply (decode_encode_extended after_e4 (S754_zero false)). by vm_compute.
Defined.

Lemma flip_piece_channels_witness :
  ∃ y, flip_board_tensor np.float32 after_e4_extended = Ok y ∧ np.shape 19 8 8 y ∧
    ∀ i r f, i < 6 → r < 8 →
      np.getitem y i r f = np.getitem after_e4_extended (i + 6) (8 - 1 - r) f ∧
      np.getitem y (i + 6) r f = np.getitem after_e4_extended i (8 - 1 - r) f.
Proof.
  apply (flip_piece_channels np.float32 19 8 8); [by vm_compute | right; lia].
Defined.

Lemma flip_trailing_channels_witness :
  ∃ y, flip_board_tensor np.float32 twenty_channels = Ok y ∧
    y !! 12 =
      np.rsub np.float32 (np.one np.float32) <$> twenty_channels !! 12 ∧
    y !! 13 = twenty_channels !! 15 ∧ y !! 15 = twenty_channels !! 13 ∧
    y !! 14 = twenty_channels !! 16 ∧ y !! 16 = twenty_channels !! 14 ∧
    y !! 17 = np.flip <$> twenty_channels !! 17 ∧
    y !! 18 = twenty_channels !! 18 ∧
    ∀ j, 19 ≤ j → j < 20 → y !! j = Some (np.full_plane 8 8 np.f0).
Proof.
  apply (flip_trailing_channels np.float32 20 8 8); [by vm_compute | lia].
Defined.

Lemma flip_encode_basic_witness :
  ∃ t t', board_to_tensor after_e4 = Ok t ∧
    board_to_tensor after_e4_mirrored = Ok t' ∧
    flip_board_tensor np.float32 t = Ok t' ∧ flip_board_tensor np.float32 t' = Ok t.
Proof. apply flip_encode_basic. apply after_e4_mirrored_pieces. Defined.

Lemma flip_encode_extended_witness :
  ∃ t t', board_to_tensor_extended after_e4 = Ok t ∧
    board_to_tensor_extended after_e4_mirrored = Ok t' ∧
    flip_board_tensor np.float32 t = Ok t'.
Proof.
  apply (flip_encode_extended after_e4 after_e4_mirrored (S754_zero false));
    [|by vm_compute].
  split; [apply after_e4_mirrored_pieces | by vm_compute].
Defined.

Lemma flip_flip_encode_extended_witness :
  ∃ t y, board_to_tensor_extended after_e4 = Ok t ∧
    flip_board_tensor np.float32 t = Ok y ∧ flip_board_tensor np.float32 y = Ok t.
Proof.
  apply (flip_flip_encode_extended after_e4 (S754_zero false)). by vm_compute.
Defined.

Lemma visualize_combined_witness :
  (12 ≤ 12 ∧ 8 ≤ 8 ∧ 8 ≤ 8 →
     visualize_tensor multi_hot None =
       ("Combined view:"
          :: (rank_line
                (λ r f, found_text (lowest_active multi_hot r f (range 12)))
                <$> rank_rows)
          ++ [file_footer],
        Ok ())) ∧
  (12 = 0 ∨ 8 < 8 ∨ 8 < 8 →
     visualize_tensor multi_hot None = (["Combined view:"], Raise IndexError)).
Proof. apply (visualize_combined 12 8 8). by vm_compute. Defined.

Lemma visualize_channel_witness :
  ((- Z.of_nat 12 ≤ -1 < Z.of_nat 12)%Z ∧ 8 ≤ 8 ∧ 8 ≤ 8 →
     visualize_tensor after_e4_basic (Some (-1)%Z) =
       (("Channel " +:+ pretty (-1)%Z +:+ ":")
          :: (rank_line (mark_text after_e4_basic (wrapped 12 (-1))) <$> rank_rows)
          ++ [file_footer],
        Ok ())) ∧
  (¬ (- Z.of_nat 12 ≤ -1 < Z.of_nat 12)%Z ∨ 8 < 8 ∨ 8 < 8 →
     visualize_tensor after_e4_basic (Some (-1)%Z) =
       (["Channel " +:+ pretty (-1)%Z +:+ ":"], Raise IndexError)).
Proof. apply (visualize_channel 12 8 8). by vm_compute. Defined.
